(** * EnergyFlow base classes ([energyflow/base.py]): a shallow embedding

    The three classes of [base.py] are embedded module by module:
    [EFBase] (measure holder and batch evaluation), [EFPBase] (polynomial
    observables) and [EFMBase] (moment observables).  Python objects that
    are mutated in place (the caller's [kwargs] dict, the instance [self])
    live in an explicit heap threaded through a small state-and-exception
    monad; calls into external collaborators are recorded in a log. *)

From Equations Require Import Equations.
From Equations.Prop Require Import Logic.
From stdpp Require Import base gmap sets list strings.
From Stdlib Require Import ZArith QArith.

Local Open Scope Z_scope.

(** ** Python values, truthiness and exceptions *)

(** The values a configuration mapping carries. *)
Inductive value :=
| VNone
| VBool (b : bool)
| VNum (q : Q)
| VStr (s : string).

(** [bool(v)] *)
Definition truthy (v : value) : bool :=
  match v with
  | VNone => false
  | VBool b => b
  | VNum q => negb (Qnum q =? 0)%Z
  | VStr s => negb (String.eqb s "")
  end.

Inductive exn :=
| TypeError (msg : string)
| ValueError (msg : string)
| AssertionError (msg : string)
| KeyError (key : string)
| AttributeError (name : string)
| ZeroDivisionError
| NotImplementedError
| ConfigurationError (keys : list string)
| RuntimeError (msg : string).

Inductive result (A : Type) :=
| Ok (a : A)
| Raise (e : exn).
Arguments Ok {A} a.
Arguments Raise {A} e.

#[export] Instance result_ret : MRet result := fun A a => Ok a.
#[export] Instance result_bind : MBind result := fun A B f r =>
  match r with
  | Ok a => f a
  | Raise e => Raise e
  end.
#[export] Instance result_fmap : FMap result := fun A B f r =>
  match r with
  | Ok a => Ok (f a)
  | Raise e => Raise e
  end.

Definition is_ok {A} (r : result A) : bool :=
  match r with Ok _ => true | Raise _ => false end.

(** [list(map(f, l))] for an [f] that may raise: the first exception, in
    input order, aborts the traversal. *)
Fixpoint map_result {A B} (f : A -> result B) (l : list A) : result (list B) :=
  match l with
  | [] => Ok []
  | x :: l' =>
      y ← f x;
      ys ← map_result f l';
      mret (y :: ys)
  end.

(** [needle in hay] on two [str]: substring search. *)
Fixpoint str_contains (needle hay : string) : bool :=
  String.prefix needle hay ||
  match hay with
  | EmptyString => false
  | String _ hay' => str_contains needle hay'
  end.

(** [needle in v] for a [str] needle: only a [str] container answers, every
    other value of the model is not iterable. *)
Definition py_in (needle : string) (v : value) : result bool :=
  match v with
  | VStr s => Ok (str_contains needle s)
  | VNone => Raise (TypeError "argument of type 'NoneType' is not iterable")
  | VBool _ => Raise (TypeError "argument of type 'bool' is not iterable")
  | VNum _ => Raise (TypeError "argument of type 'float' is not iterable")
  end.

(** [a // b] on Python integers. *)
Definition floordiv (a b : Z) : result Z :=
  if b =? 0 then Raise ZeroDivisionError else Ok (a / b).

(** ** The Measure collaborator

    [energyflow.measure] is imported by [base.py].  This file reads and
    writes only the attributes of a [Measure] instance, so an instance is
    the record of those attributes; the constructor, [evaluate] and the set
    [measure_kwargs] are parameters of the development ([MeasureLib]). *)

Module Measure.

Record t := mk {
  measure : value;
  beta : value;
  kappa : value;
  normed : value;
  coords : value;
  check_input : value;
  subslicing : value
}.

(** [m.beta = v] *)
Definition set_beta (v : value) (m : t) : t :=
  mk (measure m) v (kappa m) (normed m) (coords m) (check_input m) (subslicing m).

End Measure.

(** Arrays of scalars: [zs] is one-dimensional, an event, [thetas] and
    [phats] are two-dimensional. *)
Abbreviation array1 F := (list F) (only parsing).
Abbreviation array2 F := (list (list F)) (only parsing).

Class MeasureLib (F : Type) := {
  (** the recognised configuration keys *)
  measure_kwargs : gset string;
  (** [Measure(kind, **kwargs)] *)
  Measure_new : value -> gmap string value -> result Measure.t;
  (** [m.evaluate(event)] *)
  Measure_evaluate : Measure.t -> array2 F -> result (array1 F * array2 F)
}.

(** What [multiprocessing] and [sys] report on the running interpreter. *)
Class Platform := {
  (** [multiprocessing.cpu_count()]: a positive count, or an exception *)
  cpu_count : result positive;
  (** [sys.version_info[0]] *)
  version_major : Z
}.

(** ** Instances, the heap and the monad *)

(** What an instance attribute [_measure] may hold. *)
Inductive attr :=
| IsMeasure (m : Measure.t)
| NotMeasure (v : value).

(** The instance attributes [base.py] assigns; [None] is an attribute that
    was never set. *)
Record obj := Obj {
  _measure : option attr;
  use_efms : option bool;
  n_jobs : option Z
}.

Definition new_obj : obj := Obj None None None.

(** [o._measure = a], [o.use_efms = b], [o.n_jobs = n] *)
Definition set__measure (a : attr) (o : obj) : obj :=
  Obj (Some a) (use_efms o) (n_jobs o).
Definition set_use_efms (b : bool) (o : obj) : obj :=
  Obj (_measure o) (Some b) (n_jobs o).
Definition set_n_jobs (n : Z) (o : obj) : obj :=
  Obj (_measure o) (use_efms o) (Some n).

(** [o.n_jobs] read back. *)
Definition getattr_n_jobs (o : obj) : result Z :=
  match n_jobs o with
  | Some n => Ok n
  | None => Raise (AttributeError "n_jobs")
  end.

(** Calls into the collaborators, in the order they happen. *)
Inductive effect :=
| MeasureNew (kind : value) (kw : gmap string value)
| PoolNew (processes : Z)
| PoolImap (chunksize : Z)
| PoolTerminate
| PoolClose.

Record heap := Heap {
  kwargs : gmap string value;
  self : obj;
  log : list effect
}.

Definition M (A : Type) : Type := heap -> result A * heap.

#[export] Instance M_ret : MRet M := fun A a h => (Ok a, h).
#[export] Instance M_bind : MBind M := fun A B f m h =>
  match m h with
  | (Ok a, h') => f a h'
  | (Raise e, h') => (Raise e, h')
  end.

Definition lift {A} (r : result A) : M A := fun h => (r, h).
Definition raise {A} (e : exn) : M A := fun h => (Raise e, h).
Definition get_kwargs : M (gmap string value) := fun h => (Ok (kwargs h), h).
Definition get_self : M obj := fun h => (Ok (self h), h).
Definition put_self (o : obj) : M unit := fun h =>
  (Ok tt, Heap (kwargs h) o (log h)).
Definition emit (e : effect) : M unit := fun h =>
  (Ok tt, Heap (kwargs h) (self h) (log h ++ [e])).

(** [kwargs.setdefault(k, d)] *)
Definition dict_setdefault (k : string) (d : value) : M value := fun h =>
  match kwargs h !! k with
  | Some v => (Ok v, h)
  | None => (Ok d, Heap (<[k := d]> (kwargs h)) (self h) (log h))
  end.

(** [kwargs.pop(k, d)] *)
Definition dict_pop_default (k : string) (d : value) : M value := fun h =>
  match kwargs h !! k with
  | Some v => (Ok v, Heap (delete k (kwargs h)) (self h) (log h))
  | None => (Ok d, h)
  end.

(** [kwargs.pop(k)] *)
Definition dict_pop (k : string) : M value := fun h =>
  match kwargs h !! k with
  | Some v => (Ok v, Heap (delete k (kwargs h)) (self h) (log h))
  | None => (Raise (KeyError k), h)
  end.

(** Modelled from the spec: [energyflow.utils.kwargs_check] is not in the
    file; the mapping may contain only recognised keys, otherwise
    construction fails with a configuration error naming the offending
    keys. *)
Definition kwargs_check (name : string) (kw : gmap string value)
    (allowed : gset string) : result unit :=
  let bad := filter (fun k => k ∉ allowed) (elements (dom kw)) in
  match bad with
  | [] => Ok tt
  | _ => Raise (ConfigurationError bad)
  end.

(** ** [multiprocessing.Pool]

    The standard-library pool, as far as [batch_compute] uses it: the
    constructor, ordered chunked [imap], [close] and the context-manager
    exit (which terminates the workers). *)

Section pool.
Context {A B : Type}.

(** [Pool._get_tasks]: successive [islice(it, size)] batches, stopping at
    the first empty one. *)
Equations? get_tasks (size : nat) (it : list A) : list (list A)
  by wf (length it) lt :=
  get_tasks size it with inspect (take size it) := {
    | @exist [] _ := [];
    | @exist (x :: xs) _ := (x :: xs) :: get_tasks size (drop size it) }.
Proof.
  destruct size as [|size]; [discriminate|].
  destruct it as [|y it]; [discriminate|].
  rewrite length_drop. simpl. lia.
Qed.

(** [mapstar]: what a worker runs on one batch. *)
Definition mapstar (f : A -> result B) (batch : list A) : result (list B) :=
  map_result f batch.

(** [Pool(processes)] *)
Definition Pool (processes : Z) : M unit :=
  if processes <? 1
  then raise (ValueError "Number of processes must be at least 1")
  else emit (PoolNew processes).

(** [list(pool.imap(f, iterable, chunksize))]: results come back in task
    order; a batch whose worker raised re-raises when its turn comes. *)
Definition Pool_imap (f : A -> result B) (iterable : list A)
    (chunksize : Z) : M (list B) :=
  emit (PoolImap chunksize);;
  if chunksize =? 1 then lift (map_result f iterable)
  else if chunksize <? 1 then raise (ValueError "Chunksize must be 1+")
  else
    chunks ← lift (map_result (mapstar f)
                     (get_tasks (Z.to_nat chunksize) iterable));
    mret (concat chunks).

(** [pool.close()] *)
Definition Pool_close : M unit := emit PoolClose.

End pool.

(** [with Pool(processes) as pool: body]: [__exit__] terminates the pool on
    every way out of the body and lets an exception through. *)
Definition with_Pool {A} (processes : Z) (body : M A) : M A := fun h =>
  match Pool processes h with
  | (Raise e, h') => (Raise e, h')
  | (Ok _, h') => let '(r, h'') := body h' in (r, snd (emit PoolTerminate h''))
  end.

(** Pools created and not yet closed or terminated, read off a log. *)
Fixpoint live_pools (l : list effect) (live : nat) : nat :=
  match l with
  | [] => live
  | PoolNew _ :: l' => live_pools l' (S live)
  | (PoolTerminate | PoolClose) :: l' => live_pools l' (pred live)
  | _ :: l' => live_pools l' live
  end.

(** ** [class EFBase] *)

Module EFBase.
Section EFBase.
Context {F : Type} {ML : MeasureLib F} {PF : Platform}.

(** [EFBase.__init__(self, kwargs)] *)
Definition __init__ : M unit :=
  kw ← get_kwargs;
  lift (kwargs_check "EFBase" kw measure_kwargs);;
  kind ← dict_pop "measure";
  rest ← get_kwargs;
  emit (MeasureNew kind rest);;
  m ← lift (Measure_new kind rest);
  o ← get_self;
  put_self (set__measure (IsMeasure m) o).

(** [hasattr(self, '_measure') and isinstance(self._measure, Measure)] *)
Definition has_measure (self : obj) : bool :=
  match _measure self with
  | Some (IsMeasure _) => true
  | _ => false
  end.

(** [self._measure.<field> if self.has_measure() else None] *)
Definition measure_attr (field : Measure.t -> value) (self : obj) : value :=
  match _measure self with
  | Some (IsMeasure m) => field m
  | _ => VNone
  end.

Definition measure : obj -> value := measure_attr Measure.measure.
Definition beta : obj -> value := measure_attr Measure.beta.
Definition kappa : obj -> value := measure_attr Measure.kappa.
Definition normed : obj -> value := measure_attr Measure.normed.
Definition coords : obj -> value := measure_attr Measure.coords.
Definition check_input : obj -> value := measure_attr Measure.check_input.
Definition subslicing : obj -> value := measure_attr Measure.subslicing.

(** [self._measure.evaluate(event)] *)
Definition evaluate (self : obj) (event : array2 F)
    : result (array1 F * array2 F) :=
  match _measure self with
  | None => Raise (AttributeError "_measure")
  | Some (NotMeasure _) => Raise (AttributeError "evaluate")
  | Some (IsMeasure m) => Measure_evaluate m event
  end.

(** The resolution of [n_jobs] at the head of [batch_compute]. *)
Definition resolve_n_jobs (n_jobs : Z) : Z :=
  if n_jobs =? -1 then
    match cpu_count with
    | Ok n => Z.pos n
    | Raise _ => 4
    end
  else n_jobs.

(** [min(max(len(events)//n_jobs, 1), 10000)] *)
Definition chunksize_of (len n_jobs : Z) : result Z :=
  q ← floordiv len n_jobs;
  mret (Z.min (Z.max q 1) 10000).

Context {R : Type}.
(** [self._batch_compute_func], the bound method a subclass supplies. *)
Variable _batch_compute_func : obj -> array2 F -> result R.

(** [EFBase.batch_compute(self, events, n_jobs=-1)]; [np.asarray(list(..))]
    keeps the elements and their order. *)
Definition batch_compute (events : list (array2 F)) (n_jobs : Z)
    : M (list R) :=
  let n_jobs := resolve_n_jobs n_jobs in
  o ← get_self;
  put_self (set_n_jobs n_jobs o);;
  self ← get_self;
  self_n_jobs ← lift (getattr_n_jobs self);
  if self_n_jobs =? 1 then
    lift (map_result (_batch_compute_func self) events)
  else
    chunksize ← lift (chunksize_of (Z.of_nat (length events)) self_n_jobs);
    if version_major =? 3 then
      with_Pool self_n_jobs
        (Pool_imap (_batch_compute_func self) events chunksize)
    else
      Pool self_n_jobs;;
      results ← Pool_imap (_batch_compute_func self) events chunksize;
      Pool_close;;
      mret results.

End EFBase.
End EFBase.

(** [Class(kwargs)]: run an [__init__] on a fresh instance.  The caller
    gets the instance or the exception, keeps its (mutated) [kwargs] dict,
    and the log tells which collaborators were called. *)
Definition construct (init : M unit) (kw : gmap string value)
    : result obj * gmap string value * list effect :=
  let '(r, h) := init (Heap kw new_obj []) in
  ((fun _ => self h) <$> r, kwargs h, log h).

(** ** [class EFPBase(EFBase)] *)

Module EFPBase.
Section EFPBase.
Context {F : Type} {ML : MeasureLib F} {PF : Platform}.
(** [x**w] on one scalar; arrays are raised elementwise. *)
Variable Fpow : F -> Z -> F.

(** [EFPBase.__init__(self, kwargs)] *)
Definition __init__ : M unit :=
  no_measure ← dict_pop_default "no_measure" (VBool false);
  if negb (truthy no_measure) then
    dict_setdefault "measure" (VStr "hadr");;
    EFBase.__init__;;
    o ← get_self;
    uses ← lift (py_in "efm" (EFBase.measure o));
    put_self (set_use_efms uses o)
  else mret tt.

(** [thetas**w] *)
Definition array_pow (thetas : array2 F) (w : Z) : array2 F :=
  map (map (fun x => Fpow x w)) thetas.

Context {E R : Type}.
(** The abstract members a concrete subclass supplies. *)
Variable weight_set : obj -> gset Z.
Variable efmset_compute : obj -> array1 F -> array2 F -> result E.
Variable compute : obj -> array2 F -> bool -> result R.

(** [{w: thetas**w for w in self.weight_set}] *)
Definition thetas_dict (self : obj) (thetas : array2 F) : gmap Z (array2 F) :=
  set_fold (fun w d => <[w := array_pow thetas w]> d) ∅ (weight_set self).

(** [EFPBase.get_zs_thetas_dict(self, event, zs, thetas)] *)
Definition get_zs_thetas_dict (self : obj) (event : option (array2 F))
    (zs : option (array1 F)) (thetas : option (array2 F))
    : result (array1 F * gmap Z (array2 F)) :=
  zt ← match event with
       | Some ev => EFBase.evaluate self ev
       | None =>
           match zs, thetas with
           | Some zs, Some thetas => Ok (zs, thetas)
           | _, _ => Raise (TypeError
               "If event is None then zs and thetas cannot also be None")
           end
       end;
  mret (zt.1, thetas_dict self zt.2).

(** [EFPBase.compute_efms(self, event, zs, phats)] *)
Definition compute_efms (self : obj) (event : option (array2 F))
    (zs : option (array1 F)) (phats : option (array2 F)) : result E :=
  zp ← match event with
       | Some ev => EFBase.evaluate self ev
       | None =>
           match zs, phats with
           | Some zs, Some phats => Ok (zs, phats)
           | _, _ => Raise (TypeError
               "If event is None then zs and thetas cannot also be None")
           end
       end;
  efmset_compute self zp.1 zp.2.

(** [self.compute(event, batch_call=True)] *)
Definition _batch_compute_func (self : obj) (event : array2 F) : result R :=
  compute self event true.

(** [batch_compute] as inherited from [EFBase]. *)
Definition batch_compute : list (array2 F) -> Z -> M (list R) :=
  EFBase.batch_compute _batch_compute_func.

End EFPBase.
End EFPBase.

(** ** [class EFMBase(EFBase)] *)

Module EFMBase.
Section EFMBase.
Context {F : Type} {ML : MeasureLib F} {PF : Platform}.

(** The [assert] that opens [EFMBase.__init__]:
    ['efm' in kwargs.setdefault('measure', 'hadrefm')], with assertions
    enabled as they are by default. *)
Definition check_efm_measure : M unit :=
  kind ← dict_setdefault "measure" (VStr "hadrefm");
  is_efm ← lift (py_in "efm" kind);
  if is_efm : bool then mret tt
  else raise (AssertionError "Must use an efm measure.").

(** [self._measure.beta = None] *)
Definition clear_beta : M unit :=
  o ← get_self;
  match _measure o with
  | Some (IsMeasure m) =>
      put_self (set__measure (IsMeasure (Measure.set_beta VNone m)) o)
  | Some (NotMeasure _) => raise (AttributeError "beta")
  | None => raise (AttributeError "_measure")
  end.

(** The rest of [EFMBase.__init__]: the base class is initialised unless
    [no_measure] is set, and the measure's [beta] is cleared. *)
Definition init_measure : M unit :=
  no_measure ← dict_pop_default "no_measure" (VBool false);
  if negb (truthy no_measure) then
    EFBase.__init__;;
    clear_beta
  else mret tt.

(** [EFMBase.__init__(self, kwargs)] *)
Definition __init__ : M unit :=
  check_efm_measure;;
  init_measure.

(** [EFMBase.compute(self, event=None, zs=None, phats=None)], the body a
    subclass extends. *)
Definition compute (self : obj) (event : option (array2 F))
    (zs : option (array1 F)) (phats : option (array2 F))
    : result (array1 F * array2 F) :=
  match event with
  | Some ev => EFBase.evaluate self ev
  | None =>
      match zs, phats with
      | Some zs, Some phats => Ok (zs, phats)
      | _, _ => Raise (ValueError
          "If event is None then zs and phats cannot be None.")
      end
  end.

Context {R : Type}.
(** [self.compute] as the concrete subclass overrides it. *)
Variable subclass_compute :
  obj -> option (array2 F) -> option (array1 F) -> option (array2 F) -> result R.

(** [self.compute(event)] *)
Definition _batch_compute_func (self : obj) (event : array2 F) : result R :=
  subclass_compute self (Some event) None None.

(** [batch_compute] as inherited from [EFBase]. *)
Definition batch_compute : list (array2 F) -> Z -> M (list R) :=
  EFBase.batch_compute _batch_compute_func.

End EFMBase.
End EFMBase.

(** ** Concrete collaborators

    A small measure library over integer scalars and two interpreters, used
    to run the definitions on concrete inputs. *)

Module Demo.

Definition lib : MeasureLib Z := {|
  measure_kwargs :=
    {["measure"]} ∪ {["beta"]} ∪ {["kappa"]} ∪ {["normed"]} ∪ {["coords"]}
    ∪ {["check_input"]};
  Measure_new kind kw :=
    Ok (Measure.mk kind
          (default (VNum 1) (kw !! "beta"))
          (default (VNum 1) (kw !! "kappa"))
          (default (VBool true) (kw !! "normed"))
          (default VNone (kw !! "coords"))
          (default (VBool true) (kw !! "check_input"))
          (VBool false));
  Measure_evaluate m ev :=
    Ok (map (fun p => hd 0 p) ev,
        map (fun p => map (fun q => Z.abs (hd 0 p - hd 0 q)) ev) ev)
|}.

Definition py3 : Platform := {| cpu_count := Ok 8%positive; version_major := 3 |}.
Definition py2 : Platform :=
  {| cpu_count := Raise NotImplementedError; version_major := 2 |}.

(** An instance holding the default hadronic EFM measure. *)
Definition with_measure : obj :=
  Obj (Some (IsMeasure
         (Measure.mk (VStr "hadrefm") VNone (VNum 1) (VBool true) VNone
            (VBool true) (VBool false))))
      None None.

(** A per-event function that adds up the first coordinates and rejects the
    empty event. *)
Definition total (_ : obj) (ev : array2 Z) : result Z :=
  match ev with
  | [] => Raise (RuntimeError "empty event")
  | _ => Ok (foldr (fun p acc => hd 0 p + acc) 0 ev)
  end.

(** A moment set that hands back the data it is given. *)
Definition efms (_ : obj) (zs : array1 Z) (phats : array2 Z)
    : result (array1 Z * array2 Z) :=
  Ok (zs, phats).

(** The weights of a small polynomial observable. *)
Definition weights (_ : obj) : gset Z := {[1; 2]}.

End Demo.

(** ** Specification-side definitions *)

(** [clamp(x, lo, hi)] as the specification words it. *)
Definition clamp (x lo hi : Z) : Z :=
  if x <? lo then lo else if hi <? x then hi else x.

(** The pool calls one parallel batch makes under interpreter [major], with
    [r] workers and chunk size [c]; [ok] tells whether every worker
    returned. *)
Definition parallel_log (major : Z) (ok : bool) (r c : Z) : list effect :=
  [PoolNew r; PoolImap c] ++
  (if major =? 3 then [PoolTerminate]
   else if ok then [PoolClose] else []).

(** The exception of a batch that never gets a pool. *)
Definition no_pool_error (r : Z) : exn :=
  if r =? 0 then ZeroDivisionError
  else ValueError "Number of processes must be at least 1".

(** [bool(event)] for an event given as a sequence of particles. *)
Definition event_truthy {F} (event : array2 F) : bool :=
  match event with
  | [] => false
  | _ :: _ => true
  end.

(** The measure kind a moment evaluable is configured with: the
    ['measure'] entry, ['hadrefm'] when there is none. *)
Definition measure_kind (kw : gmap string value) : value :=
  default (VStr "hadrefm") (kw !! "measure").

(** No measure attached, as the accessors show it. *)
Definition measure_less (o : obj) : Prop :=
  EFBase.has_measure o = false /\
  EFBase.measure o = VNone /\
  EFBase.beta o = VNone /\
  EFBase.kappa o = VNone /\
  EFBase.normed o = VNone /\
  EFBase.coords o = VNone /\
  EFBase.check_input o = VNone /\
  EFBase.subslicing o = VNone.

(** * Properties *)

(** ** Running the definitions *)

Example str_contains_hadrefm : str_contains "efm" "hadrefm" = true.
Proof. reflexivity. Qed.
Example str_contains_hadr : str_contains "efm" "hadr" = false.
Proof. reflexivity. Qed.
Example floordiv_neg : floordiv 7 (-2) = Ok (-4).
Proof. reflexivity. Qed.
Example get_tasks_5_2 : get_tasks 2 [1; 2; 3; 4; 5] = [[1; 2]; [3; 4]; [5]].
Proof. reflexivity. Qed.
Example get_tasks_0 : get_tasks 0 [1; 2; 3] = [].
Proof. reflexivity. Qed.

(** ** Mapping a fallible function *)

Section map_result_facts.
Context {A B : Type} (f : A -> result B).

Lemma map_result_app (l1 l2 : list A) :
  map_result f (l1 ++ l2) =
  ys1 ← map_result f l1; ys2 ← map_result f l2; mret (ys1 ++ ys2).
Proof.
  induction l1 as [|x l1 IH]; simpl.
  - by destruct (map_result f l2).
  - destruct (f x) as [y|e]; simpl; [|done].
    rewrite IH. destruct (map_result f l1) as [ys1|e]; simpl; [|done].
    by destruct (map_result f l2).
Qed.

(** Batching, mapping each batch and flattening is mapping: the order of
    the results and the first exception are those of the plain map. *)
Lemma map_result_chunked (size : nat) (l : list A) :
  (0 < size)%nat ->
  (chunks ← map_result (mapstar f) (get_tasks size l); mret (concat chunks))
  = map_result f l.
Proof.
  intros Hsize. funelim (get_tasks size l).
  - destruct size as [|size]; [lia|].
    destruct it as [|y it]; [done|discriminate].
  - match goal with IH : _ -> _ = map_result f (drop _ _) |- _ =>
      specialize (IH Hsize); rename IH into IHdrop end.
    rewrite <- (take_drop size it) at 2.
    rewrite map_result_app, e, <- IHdrop.
    generalize (x :: xs). intros batch.
    cbn [map_result]. change (mapstar f batch) with (map_result f batch).
    destruct (map_result f batch) as [ys|err]; [|done].
    cbn. by destruct (map_result _ (get_tasks size (drop size it))).
Qed.

Lemma map_result_lookup (l : list A) (ys : list B) :
  map_result f l = Ok ys ->
  length ys = length l /\
  forall (i : nat) (x : A), l !! i = Some x ->
    exists y, f x = Ok y /\ ys !! i = Some y.
Proof.
  revert ys. induction l as [|x l IH]; intros ys; simpl.
  - intros [= <-]. split; [done|]. intros i x0 Hx. by destruct i.
  - destruct (f x) as [y|e] eqn:Hfx; [|done]. simpl.
    destruct (map_result f l) as [ys'|e]; [|done]. simpl.
    intros [= <-]. destruct (IH ys' eq_refl) as [Hlen Hnth].
    split; [simpl; congruence|].
    intros [|i] x0 Hx; simpl in *.
    + injection Hx as <-. eauto.
    + eauto.
Qed.

Lemma map_result_total (l : list A) :
  Forall (fun x => is_ok (f x) = true) l ->
  exists ys, map_result f l = Ok ys.
Proof.
  induction 1 as [|x l Hx _ [ys IH]]; [by eexists|]. simpl.
  destruct (f x); [|done]. simpl. rewrite IH. by eexists.
Qed.

Lemma map_result_raises (l : list A) (x : A) (e : exn) :
  x ∈ l -> f x = Raise e -> is_ok (map_result f l) = false.
Proof.
  intros Hin Hx. induction l as [|y l IH]; [by apply elem_of_nil in Hin|].
  simpl. apply elem_of_cons in Hin as [<-|Hin].
  - by rewrite Hx.
  - destruct (f y); [|done]. simpl.
    specialize (IH Hin). by destruct (map_result f l).
Qed.

End map_result_facts.

(** ** [batch_compute] *)

Section batch_facts.
Context {F R : Type} {PF : Platform}.
Implicit Types (func : obj -> array2 F -> result R).
Implicit Types (events : list (array2 F)) (h : heap) (n : Z).

Lemma min_max_clamp (x : Z) : Z.min (Z.max x 1) 10000 = clamp x 1 10000.
Proof. unfold clamp. repeat case_match; lia. Qed.

Lemma clamp_bounds (x : Z) : 1 <= clamp x 1 10000 <= 10000.
Proof. unfold clamp. repeat case_match; lia. Qed.

Lemma chunksize_of_nonzero (len n : Z) :
  n <> 0 -> EFBase.chunksize_of len n = Ok (clamp (len / n) 1 10000).
Proof.
  intros Hn. unfold EFBase.chunksize_of, floordiv.
  destruct (Z.eqb_spec n 0); [done|]. cbn. by rewrite min_max_clamp.
Qed.

Lemma resolve_n_jobs_cases n :
  (n <> -1 /\ EFBase.resolve_n_jobs n = n) \/
  (n = -1 /\ exists c, cpu_count = Ok c /\ EFBase.resolve_n_jobs n = Z.pos c) \/
  (n = -1 /\ exists e, cpu_count = Raise e /\ EFBase.resolve_n_jobs n = 4).
Proof.
  unfold EFBase.resolve_n_jobs. destruct (Z.eqb_spec n (-1)) as [->|Hn].
  - right. destruct cpu_count as [c|e]; [left|right]; eauto.
  - by left.
Qed.

Lemma resolve_n_jobs_positive n :
  n = -1 \/ 1 <= n -> 1 <= EFBase.resolve_n_jobs n.
Proof.
  destruct (resolve_n_jobs_cases n)
    as [[? ->]|[[-> (c & _ & ->)]|[-> (e & _ & ->)]]]; lia.
Qed.

(** Ordered [imap] with a chunk size of at least one is the plain map. *)
Lemma Pool_imap_ordered {A B} (f : A -> result B) (l : list A) (c : Z) h :
  1 <= c ->
  Pool_imap f l c h =
  (map_result f l, Heap (kwargs h) (self h) (log h ++ [PoolImap c])).
Proof.
  intros Hc. unfold Pool_imap, mbind, M_bind, emit. cbn.
  destruct (Z.eqb_spec c 1); [done|].
  destruct (Z.ltb_spec c 1); [lia|].
  unfold lift. cbn.
  rewrite <- (map_result_chunked f (Z.to_nat c) l) by lia.
  by destruct (map_result (mapstar f) _).
Qed.

(** The three ways through [batch_compute], by the resolved worker count. *)
Lemma batch_compute_sequential func events n h :
  EFBase.resolve_n_jobs n = 1 ->
  let self' := set_n_jobs (EFBase.resolve_n_jobs n) (self h) in
  EFBase.batch_compute func events n h =
  (map_result (func self') events, Heap (kwargs h) self' (log h)).
Proof.
  intros Hr. unfold EFBase.batch_compute. rewrite Hr. done.
Qed.

Lemma batch_compute_parallel func events n h :
  2 <= EFBase.resolve_n_jobs n ->
  let r := EFBase.resolve_n_jobs n in
  let self' := set_n_jobs r (self h) in
  let res := map_result (func self') events in
  let c := clamp (Z.of_nat (length events) / r) 1 10000 in
  EFBase.batch_compute func events n h =
  (res, Heap (kwargs h) self'
          (log h ++ parallel_log version_major (is_ok res) r c)).
Proof.
  intros Hr. unfold EFBase.batch_compute, parallel_log.
  remember (EFBase.resolve_n_jobs n) as r eqn:Er. clear Er. cbn zeta.
  unfold mbind, M_bind, get_self, put_self, lift. cbn.
  destruct (Z.eqb_spec r 1); [lia|].
  rewrite chunksize_of_nonzero by lia.
  pose proof (clamp_bounds (Z.of_nat (length events) / r)) as Hc.
  set (c := clamp _ 1 10000) in *.
  destruct (version_major =? 3).
  - unfold with_Pool, Pool. destruct (Z.ltb_spec r 1); [lia|].
    cbn. rewrite Pool_imap_ordered by lia. cbn.
    by rewrite <- !app_assoc.
  - unfold Pool. destruct (Z.ltb_spec r 1); [lia|].
    cbn. rewrite Pool_imap_ordered by lia. cbn.
    destruct (map_result _ events);
      unfold mret, M_ret; cbn; by rewrite <- !app_assoc.
Qed.

Lemma batch_compute_no_pool func events n h :
  EFBase.resolve_n_jobs n < 1 ->
  let r := EFBase.resolve_n_jobs n in
  EFBase.batch_compute func events n h =
  (Raise (no_pool_error r), Heap (kwargs h) (set_n_jobs r (self h)) (log h)).
Proof.
  intros Hr. unfold EFBase.batch_compute, no_pool_error.
  remember (EFBase.resolve_n_jobs n) as r eqn:Er. clear Er. cbn zeta.
  unfold mbind, M_bind, get_self, put_self, lift. cbn.
  destruct (Z.eqb_spec r 1); [lia|].
  destruct (Z.eqb_spec r 0) as [->|Hr0]; [done|].
  rewrite chunksize_of_nonzero by done.
  destruct (version_major =? 3); unfold with_Pool, Pool;
    by destruct (Z.ltb_spec r 1); try lia.
Qed.

(** The value [batch_compute] returns, for every worker count a caller
    can ask for. *)
Lemma batch_compute_result func events n h :
  n = -1 \/ 1 <= n ->
  (EFBase.batch_compute func events n h).1 =
  map_result (func (set_n_jobs (EFBase.resolve_n_jobs n) (self h))) events.
Proof.
  intros Hn. apply resolve_n_jobs_positive in Hn.
  destruct (Z.eq_dec (EFBase.resolve_n_jobs n) 1) as [Hr|Hr].
  - by rewrite batch_compute_sequential.
  - by rewrite batch_compute_parallel by lia.
Qed.

(** Both subclasses inherit the method; what is mapped is their own
    [compute], called as [_batch_compute_func] calls it. *)
Lemma EFPBase_batch_compute_result
    (compute : obj -> array2 F -> bool -> result R) events n h :
  n = -1 \/ 1 <= n ->
  (EFPBase.batch_compute compute events n h).1 =
  map_result
    (fun ev => compute (set_n_jobs (EFBase.resolve_n_jobs n) (self h)) ev true)
    events.
Proof. apply batch_compute_result. Qed.

Lemma EFMBase_batch_compute_result
    (compute : obj -> option (array2 F) -> option (array1 F) ->
               option (array2 F) -> result R) events n h :
  n = -1 \/ 1 <= n ->
  (EFMBase.batch_compute compute events n h).1 =
  map_result
    (fun ev => compute (set_n_jobs (EFBase.resolve_n_jobs n) (self h))
                 (Some ev) None None)
    events.
Proof. apply batch_compute_result. Qed.

(** The instance after the call, and the only instance the per-event
    function is ever applied to. *)
Lemma batch_compute_self func events n h :
  (EFBase.batch_compute func events n h).2.(self) =
  set_n_jobs (EFBase.resolve_n_jobs n) (self h).
Proof.
  destruct (Z.lt_trichotomy (EFBase.resolve_n_jobs n) 1) as [Hr|[Hr|Hr]].
  - by rewrite batch_compute_no_pool.
  - by rewrite batch_compute_sequential.
  - by rewrite batch_compute_parallel by lia.
Qed.

Lemma batch_compute_bound_self func events n h :
  EFBase.batch_compute func events n h =
  EFBase.batch_compute
    (fun _ => func (set_n_jobs (EFBase.resolve_n_jobs n) (self h))) events n h.
Proof.
  destruct (Z.lt_trichotomy (EFBase.resolve_n_jobs n) 1) as [Hr|[Hr|Hr]].
  - by rewrite !batch_compute_no_pool.
  - by rewrite !batch_compute_sequential.
  - by rewrite !batch_compute_parallel by lia.
Qed.

Lemma live_pools_app (l1 l2 : list effect) (k : nat) :
  live_pools (l1 ++ l2) k = live_pools l2 (live_pools l1 k).
Proof.
  revert k. induction l1 as [|[] l1 IH]; intros k; simpl; auto.
Qed.

(** Under Python 3 the context manager gives the pool back whatever the
    workers did. *)
Lemma batch_compute_py3_releases func events n h :
  version_major = 3 ->
  live_pools (log (EFBase.batch_compute func events n h).2) 0 =
  live_pools (log h) 0.
Proof.
  intros Hv.
  destruct (Z.lt_trichotomy (EFBase.resolve_n_jobs n) 1) as [Hr|[Hr|Hr]].
  - by rewrite batch_compute_no_pool.
  - by rewrite batch_compute_sequential.
  - rewrite batch_compute_parallel by lia. cbn [snd log].
    unfold parallel_log. rewrite Hv, live_pools_app. done.
Qed.

End batch_facts.

Section batch_claims.
Context {F R : Type} {PF : Platform}.
Implicit Types (func : obj -> array2 F -> result R).
Implicit Types (events : list (array2 F)) (h : heap) (n : Z).

(** C1.  For [n_jobs] equal to 1, 2 or -1 (auto), and in fact for -1 and
    every positive worker count, [batch_compute(events, n_jobs)] returns
    what the sequential map of the single-event compute returns: it
    succeeds whenever every event computes, the vector has one entry per
    event, and its i-th entry is the compute of [events[i]], whatever the
    worker count, the chunk size and the interpreter. *)
Theorem batch_compute_matches_sequential func events n h :
  n = -1 \/ 1 <= n ->
  let self' := set_n_jobs (EFBase.resolve_n_jobs n) (self h) in
  let out := (EFBase.batch_compute func events n h).1 in
  out = map_result (func self') events /\
  (Forall (fun ev => is_ok (func self' ev) = true) events ->
   exists results, out = Ok results) /\
  (forall results, out = Ok results ->
     length results = length events /\
     forall (i : nat) (ev : array2 F), events !! i = Some ev ->
       exists y, func self' ev = Ok y /\ results !! i = Some y).
Proof.
  intros Hn self' out.
  assert (out = map_result (func self') events) as Hout
    by (by apply batch_compute_result).
  split; [done|]. rewrite Hout. split.
  - apply map_result_total.
  - intros results. apply map_result_lookup.
Qed.

(** C5.  The chunk size handed to the pool is
    [clamp(len(events)//n_jobs, 1, 10000)] and lies in [1, 10000]: with two
    or more resolved workers the batch is dispatched with exactly that chunk
    size, and no call dispatches with any other. *)
Theorem chunksize_is_clamped func events n (kw : gmap string value) (o : obj) :
  let r := EFBase.resolve_n_jobs n in
  let c := clamp (Z.of_nat (length events) / r) 1 10000 in
  let h' := (EFBase.batch_compute func events n (Heap kw o [])).2 in
  1 <= c <= 10000 /\
  (2 <= r ->
     EFBase.chunksize_of (Z.of_nat (length events)) r = Ok c /\
     PoolImap c ∈ log h') /\
  (forall c', PoolImap c' ∈ log h' -> c' = c).
Proof.
  intros r c h'. split; [apply clamp_bounds|]. split.
  - intros Hr. split; [apply chunksize_of_nonzero; lia|].
    subst h'. rewrite batch_compute_parallel by done. cbn.
    apply elem_of_cons. right. apply elem_of_cons. by left.
  - intros c'. subst h'.
    destruct (Z.lt_trichotomy r 1) as [Hr|[Hr|Hr]].
    + rewrite batch_compute_no_pool by done. cbn. by intros ?%elem_of_nil.
    + rewrite batch_compute_sequential by done. cbn. by intros ?%elem_of_nil.
    + rewrite batch_compute_parallel by lia. cbn. unfold parallel_log.
      rewrite !elem_of_cons.
      intros [?|[[= ->]|Hin]]; [done|done|].
      destruct (version_major =? 3); [|destruct (is_ok _)];
        repeat (apply elem_of_cons in Hin as [?|Hin]; [done|]);
        by apply elem_of_nil in Hin.
Qed.

(** C6.  [n_jobs == -1] resolves to the detected CPU count, and to 4 when
    detection raises anything; every other request is kept.  The resolved
    value is in [self.n_jobs] when the call ends, however it ends, and was
    there before any event was dispatched: the per-event function only ever
    runs on the instance that carries it. *)
Theorem n_jobs_resolved_and_stored func events n h :
  let r := EFBase.resolve_n_jobs n in
  let out := EFBase.batch_compute func events n h in
  (n <> -1 -> r = n) /\
  (forall c, n = -1 -> cpu_count = Ok c -> r = Z.pos c) /\
  (forall e, n = -1 -> cpu_count = Raise e -> r = 4) /\
  self out.2 = set_n_jobs r (self h) /\
  n_jobs (self out.2) = Some r /\
  out = EFBase.batch_compute (fun _ => func (set_n_jobs r (self h))) events n h.
Proof.
  intros r out. subst r out.
  repeat apply conj.
  - destruct (resolve_n_jobs_cases n) as [[_ ?]|[[? _]|[? _]]]; done.
  - intros c Hn Hc.
    destruct (resolve_n_jobs_cases n)
      as [[? _]|[[_ (c' & Hc' & ->)]|[_ (e & He & _)]]]; congruence.
  - intros e Hn He.
    destruct (resolve_n_jobs_cases n)
      as [[? _]|[[_ (c' & Hc' & _)]|[_ (e' & _ & ->)]]]; congruence.
  - apply batch_compute_self.
  - by rewrite batch_compute_self.
  - apply batch_compute_bound_self.
Qed.

(** C7.  Where the claim fails: on the Python 2 branch ([version_major]
    other than 3) a worker exception leaves [batch_compute] before
    [pool.close()] is reached.  The exception reaches the caller, no result
    is returned, and the pool created by the call is still live. *)
Theorem py2_worker_exception_leaks_pool func events n h (ev : array2 F) (e : exn) :
  version_major <> 3 ->
  2 <= EFBase.resolve_n_jobs n ->
  ev ∈ events ->
  func (set_n_jobs (EFBase.resolve_n_jobs n) (self h)) ev = Raise e ->
  let r := EFBase.resolve_n_jobs n in
  let c := clamp (Z.of_nat (length events) / r) 1 10000 in
  let out := EFBase.batch_compute func events n h in
  is_ok out.1 = false /\
  log out.2 = log h ++ [PoolNew r; PoolImap c] /\
  live_pools (log out.2) 0 = S (live_pools (log h) 0).
Proof.
  intros Hv Hr Hin He r c out. subst out.
  rewrite batch_compute_parallel by done. cbn [fst snd log].
  rewrite (map_result_raises _ _ _ _ Hin He).
  unfold parallel_log. destruct (Z.eqb_spec version_major 3); [done|].
  split; [done|]. split; [done|].
  by rewrite live_pools_app.
Qed.

End batch_claims.

(** *** The batch claims on concrete batches *)

Lemma batch_compute_matches_sequential_witness :
  (2 = -1 \/ 1 <= 2) /\
  (EFBase.batch_compute (PF := Demo.py3) Demo.total
     [[[1]]; [[2]]; [[3]]; [[4]]; [[5]]] 2 (Heap ∅ new_obj [])).1
  = Ok [1; 2; 3; 4; 5].
Proof.
  assert (2 = -1 \/ 1 <= 2) as Hn by (right; lia).
  split; [exact Hn|].
  destruct (batch_compute_matches_sequential (PF := Demo.py3) Demo.total
              [[[1]]; [[2]]; [[3]]; [[4]]; [[5]]] 2 (Heap ∅ new_obj []) Hn)
    as [-> _].
  reflexivity.
Defined.

Lemma chunksize_is_clamped_witness :
  2 <= EFBase.resolve_n_jobs (PF := Demo.py3) 2 /\
  PoolImap 2 ∈
    log (EFBase.batch_compute (PF := Demo.py3) Demo.total
           [[[1]]; [[2]]; [[3]]; [[4]]; [[5]]] 2 (Heap ∅ new_obj [])).2.
Proof.
  assert (2 <= EFBase.resolve_n_jobs (PF := Demo.py3) 2) as Hr
    by (cbn; lia).
  split; [exact Hr|].
  destruct (chunksize_is_clamped (PF := Demo.py3) Demo.total
              [[[1]]; [[2]]; [[3]]; [[4]]; [[5]]] 2 ∅ new_obj)
    as (_ & Hpar & _).
  exact (proj2 (Hpar Hr)).
Defined.

Lemma n_jobs_resolved_and_stored_witness :
  -1 = -1 /\
  cpu_count (Platform := Demo.py2) = Raise NotImplementedError /\
  EFBase.resolve_n_jobs (PF := Demo.py2) (-1) = 4.
Proof.
  split; [reflexivity|]. split; [reflexivity|].
  destruct (n_jobs_resolved_and_stored (PF := Demo.py2) Demo.total
              [[[1]]] (-1) (Heap ∅ new_obj []))
    as (_ & _ & Hfail & _).
  exact (Hfail NotImplementedError eq_refl eq_refl).
Defined.

Lemma py2_worker_exception_leaks_pool_witness :
  version_major (Platform := Demo.py2) <> 3 /\
  2 <= EFBase.resolve_n_jobs (PF := Demo.py2) 2 /\
  [] ∈ [[[1]]; []] /\
  Demo.total (set_n_jobs 2 new_obj) [] = Raise (RuntimeError "empty event") /\
  let out := EFBase.batch_compute (PF := Demo.py2) Demo.total
               [[[1]]; []] 2 (Heap ∅ new_obj []) in
  is_ok out.1 = false /\
  log out.2 = [PoolNew 2; PoolImap 1] /\
  live_pools (log out.2) 0 = 1%nat.
Proof.
  assert (version_major (Platform := Demo.py2) <> 3) as Hv by (cbn; lia).
  assert (2 <= EFBase.resolve_n_jobs (PF := Demo.py2) 2) as Hr by (cbn; lia).
  assert (([] : array2 Z) ∈ [[[1]]; []]) as Hin
    by (apply list_elem_of_further, list_elem_of_here).
  split; [exact Hv|]. split; [exact Hr|]. split; [exact Hin|].
  split; [reflexivity|].
  exact (py2_worker_exception_leaks_pool (PF := Demo.py2) Demo.total
           [[[1]]; []] 2 (Heap ∅ new_obj []) [] (RuntimeError "empty event")
           Hv Hr Hin eq_refl).
Defined.

(** ** Construction *)

Section init_facts.
Context {F : Type} {ML : MeasureLib F}.
Implicit Types (kw : gmap string value) (o : obj) (l : list effect).

Lemma bind_ok_inv {A B} (m : M A) (f : A -> M B) (h h' : heap) (b : B) :
  (m ≫= f) h = (Ok b, h') ->
  exists a h1, m h = (Ok a, h1) /\ f a h1 = (Ok b, h').
Proof.
  unfold mbind, M_bind. destruct (m h) as [[a|e] h1]; [eauto|done].
Qed.

(** The assertion looks at the configured kind and leaves it in [kwargs]. *)
Lemma check_efm_measure_run kw o l :
  EFMBase.check_efm_measure (Heap kw o l) =
  (is_efm ← py_in "efm" (measure_kind kw);
   if is_efm : bool then Ok tt
   else Raise (AssertionError "Must use an efm measure."),
   Heap (<["measure" := measure_kind kw]> kw) o l).
Proof.
  unfold EFMBase.check_efm_measure, measure_kind, dict_setdefault.
  unfold mbind at 1, M_bind. cbn [kwargs self log].
  destruct (kw !! "measure") as [v|] eqn:Hkw; cbn [from_option id].
  - rewrite insert_id by done.
    unfold mbind, M_bind, lift.
    destruct (py_in "efm" v) as [[]|]; done.
  - unfold mbind, M_bind, lift.
    destruct (py_in "efm" (VStr "hadrefm")) as [[]|]; done.
Qed.

Lemma init_measure_skipped kw o l (v : value) :
  kw !! "no_measure" = Some v -> truthy v = true ->
  EFMBase.init_measure (Heap kw o l) =
  (Ok tt, Heap (delete "no_measure" kw) o l).
Proof.
  intros Hkw Hv. unfold EFMBase.init_measure, dict_pop_default.
  unfold mbind, M_bind. cbn [kwargs self log]. by rewrite Hkw, Hv.
Qed.

Lemma EFPBase_init_skipped kw o l (v : value) :
  kw !! "no_measure" = Some v -> truthy v = true ->
  EFPBase.__init__ (Heap kw o l) =
  (Ok tt, Heap (delete "no_measure" kw) o l).
Proof.
  intros Hkw Hv. unfold EFPBase.__init__, dict_pop_default.
  unfold mbind, M_bind. cbn [kwargs self log]. by rewrite Hkw, Hv.
Qed.

(** A base-class initialisation that returns has attached a [Measure]. *)
Lemma EFBase_init_ok (h h' : heap) :
  EFBase.__init__ h = (Ok tt, h') ->
  exists m, self h' = set__measure (IsMeasure m) (self h).
Proof.
  unfold EFBase.__init__, mbind, M_bind, get_kwargs, lift, dict_pop, emit,
    get_self, put_self.
  destruct (kwargs_check _ _ _); [|done].
  destruct (kwargs h !! "measure") as [kind|]; [|done]. cbn.
  destruct (Measure_new kind _) as [m|]; [|done].
  intros [= <-]. by exists m.
Qed.

Lemma clear_beta_ok (h h' : heap) :
  EFMBase.clear_beta h = (Ok tt, h') ->
  EFBase.has_measure (self h') = true /\ EFBase.beta (self h') = VNone.
Proof.
  unfold EFMBase.clear_beta, mbind, M_bind, get_self.
  destruct (_measure (self h)) as [[m|v]|]; [|done..].
  by intros [= <-].
Qed.

(** A moment evaluable that was constructed reports no [beta]. *)
Lemma EFMBase_init_beta (h h' : heap) :
  _measure (self h) = None ->
  EFMBase.__init__ h = (Ok tt, h') -> EFBase.beta (self h') = VNone.
Proof.
  intros Hfresh Hrun. unfold EFMBase.__init__ in Hrun.
  apply bind_ok_inv in Hrun as ([] & h1 & Hcheck & Hrun).
  assert (self h1 = self h) as Hself.
  { destruct h as [kw o l]. rewrite check_efm_measure_run in Hcheck.
    by injection Hcheck as _ <-. }
  unfold EFMBase.init_measure in Hrun.
  apply bind_ok_inv in Hrun as (v & h2 & Hpop & Hrun).
  assert (self h2 = self h1) as Hself2.
  { unfold dict_pop_default in Hpop.
    destruct (kwargs h1 !! "no_measure"); by injection Hpop as _ <-. }
  destruct (truthy v); cbn [negb] in Hrun.
  - injection Hrun as <-. unfold EFBase.beta, EFBase.measure_attr.
    by rewrite Hself2, Hself, Hfresh.
  - apply bind_ok_inv in Hrun as ([] & h3 & _ & Hclear).
    by apply clear_beta_ok in Hclear as [_ ?].
Qed.

End init_facts.

Section init_claims.
Context {F : Type} {ML : MeasureLib F} {PF : Platform}.
Implicit Types (kw : gmap string value) (o : obj) (l : list effect).

Lemma construct_ok_inv (init : M unit) kw kw' o l :
  construct init kw = (Ok o, kw', l) ->
  exists h', init (Heap kw new_obj []) = (Ok tt, h') /\ o = self h'.
Proof.
  unfold construct. destruct (init _) as [[[]|e] h']; [|done].
  intros [= <- _ _]. eauto.
Qed.

Lemma construct_EFMBase_run kw :
  construct EFMBase.__init__ kw =
  match py_in "efm" (measure_kind kw) with
  | Ok true => construct EFMBase.init_measure (<["measure" := measure_kind kw]> kw)
  | Ok false => (Raise (AssertionError "Must use an efm measure."),
                 <["measure" := measure_kind kw]> kw, [])
  | Raise e => (Raise e, <["measure" := measure_kind kw]> kw, [])
  end.
Proof.
  unfold construct, EFMBase.__init__. unfold mbind at 1, M_bind.
  rewrite check_efm_measure_run.
  by destruct (py_in "efm" (measure_kind kw)) as [[]|].
Qed.

(** C3.  A moment evaluable that was constructed, from any configuration
    and so with any [beta] in it, reports [None] as its [beta]: the
    attached measure had it cleared, and without a measure the accessor has
    nothing to read. *)
Theorem EFMBase_beta_is_None kw kw' o l :
  construct EFMBase.__init__ kw = (Ok o, kw', l) ->
  EFBase.beta o = VNone.
Proof.
  intros (h' & Hrun & ->)%construct_ok_inv.
  by apply EFMBase_init_beta in Hrun.
Qed.

(** C4.  With the configured measure kind a string, ['hadrefm'] when none
    is given, the opening check of [EFMBase.__init__] passes exactly when
    the kind contains ['efm'].  When it does not, construction raises the
    assertion error with nothing else done: no collaborator was called and
    [kwargs] only received the kind.  When it does, construction goes on
    with the rest of [__init__]. *)
Theorem efm_measure_check kw (kind : string) :
  measure_kind kw = VStr kind ->
  let checked := <["measure" := VStr kind]> kw in
  ((EFMBase.check_efm_measure (Heap kw new_obj [])).1 = Ok tt <->
   str_contains "efm" kind = true) /\
  (str_contains "efm" kind = false ->
   construct EFMBase.__init__ kw =
   (Raise (AssertionError "Must use an efm measure."), checked, [])) /\
  (str_contains "efm" kind = true ->
   construct EFMBase.__init__ kw = construct EFMBase.init_measure checked) /\
  (kw !! "measure" = None ->
   kind = "hadrefm" /\ str_contains "efm" kind = true).
Proof.
  intros Hkind checked. subst checked.
  split; [|split; [|split]].
  - rewrite check_efm_measure_run, Hkind. cbn.
    by destruct (str_contains "efm" kind).
  - intros Hno. rewrite construct_EFMBase_run, Hkind. cbn. by rewrite Hno.
  - intros Hyes. rewrite construct_EFMBase_run, Hkind. cbn. by rewrite Hyes.
  - unfold measure_kind in Hkind. intros Hnone. rewrite Hnone in Hkind.
    by injection Hkind as <-.
Qed.

(** C8.  An evaluable constructed with [no_measure] set has no measure:
    [has_measure()] is false and the accessors for the measure kind, beta,
    kappa, normed, coords, check_input and subslicing all return [None].
    This holds for the polynomial base, which always constructs, and for the
    moment base, which constructs once its kind check passes. *)
Theorem no_measure_accessors_None kw (v : value) :
  kw !! "no_measure" = Some v -> truthy v = true ->
  (exists o kw', construct EFPBase.__init__ kw = (Ok o, kw', []) /\
                 measure_less o) /\
  (forall o kw' l, construct EFMBase.__init__ kw = (Ok o, kw', l) ->
                   measure_less o) /\
  (py_in "efm" (measure_kind kw) = Ok true ->
   exists o kw', construct EFMBase.__init__ kw = (Ok o, kw', []) /\
                 measure_less o).
Proof.
  intros Hflag Hv.
  assert (measure_less new_obj) as Hnew by (by repeat split).
  assert (<["measure" := measure_kind kw]> kw !! "no_measure" = Some v)
    as Hflag' by (by rewrite lookup_insert_ne).
  repeat apply conj.
  - exists new_obj, (delete "no_measure" kw).
    unfold construct. by rewrite (EFPBase_init_skipped _ _ _ v).
  - intros o kw' l. rewrite construct_EFMBase_run.
    destruct (py_in "efm" (measure_kind kw)) as [[]|]; [|done..].
    unfold construct. rewrite (init_measure_skipped _ _ _ v) by done.
    by intros [= <- _ _].
  - intros Hefm. eexists new_obj, _.
    rewrite construct_EFMBase_run, Hefm.
    unfold construct. by rewrite (init_measure_skipped _ _ _ v).
Qed.

(** C10.  The kind check of [EFMBase.__init__] comes before the
    [no_measure] flag is looked at.  With [no_measure] set and a kind
    without ['efm'], construction raises the assertion error; nothing was
    built (the log is empty) and the flag is still in [kwargs].  With
    [no_measure] set and no kind given, the check has put ['hadrefm'] in the
    caller's [kwargs], where it stays. *)
Theorem efm_check_precedes_no_measure kw (v : value) :
  kw !! "no_measure" = Some v -> truthy v = true ->
  (forall kind : string,
     kw !! "measure" = Some (VStr kind) ->
     str_contains "efm" kind = false ->
     construct EFMBase.__init__ kw =
     (Raise (AssertionError "Must use an efm measure."), kw, [])) /\
  (kw !! "measure" = None ->
   construct EFMBase.__init__ kw =
   (Ok new_obj, delete "no_measure" (<["measure" := VStr "hadrefm"]> kw), [])).
Proof.
  intros Hflag Hv. split.
  - intros kind Hkind Hno. rewrite construct_EFMBase_run.
    unfold measure_kind. rewrite Hkind. cbn. rewrite Hno.
    by rewrite insert_id.
  - intros Hnone. rewrite construct_EFMBase_run.
    unfold measure_kind. rewrite Hnone. cbn.
    unfold construct. rewrite (init_measure_skipped _ _ _ v); [done| |done].
    by rewrite lookup_insert_ne.
Qed.

End init_claims.

(** *** The construction claims on concrete configurations *)

Lemma EFMBase_beta_is_None_witness :
  let kw : gmap string value :=
    <["beta" := VNum 2]> {["measure" := VStr "hadrefm"]} in
  let built := construct (EFMBase.__init__ (ML := Demo.lib)) kw in
  built = (Ok Demo.with_measure, built.1.2, built.2) /\
  EFBase.beta Demo.with_measure = VNone.
Proof.
  intros kw built.
  assert (built = (Ok Demo.with_measure, built.1.2, built.2)) as Hbuilt
    by (vm_compute; reflexivity).
  split; [exact Hbuilt|].
  exact (EFMBase_beta_is_None (ML := Demo.lib) kw _ _ _ Hbuilt).
Defined.

Lemma efm_measure_check_witness :
  let kw : gmap string value := {["measure" := VStr "hadr"]} in
  measure_kind kw = VStr "hadr" /\
  str_contains "efm" "hadr" = false /\
  construct (EFMBase.__init__ (ML := Demo.lib)) kw =
  (Raise (AssertionError "Must use an efm measure."),
   <["measure" := VStr "hadr"]> kw, []).
Proof.
  intros kw.
  assert (measure_kind kw = VStr "hadr") as Hkind by reflexivity.
  split; [exact Hkind|]. split; [reflexivity|].
  destruct (efm_measure_check (ML := Demo.lib) kw "hadr" Hkind)
    as (_ & Hfail & _).
  exact (Hfail eq_refl).
Defined.

Lemma no_measure_accessors_None_witness :
  let kw : gmap string value := {["no_measure" := VBool true]} in
  kw !! "no_measure" = Some (VBool true) /\
  truthy (VBool true) = true /\
  exists o kw', construct (EFPBase.__init__ (ML := Demo.lib)) kw
                = (Ok o, kw', []) /\ measure_less o.
Proof.
  intros kw.
  assert (kw !! "no_measure" = Some (VBool true)) as Hflag by reflexivity.
  split; [exact Hflag|]. split; [reflexivity|].
  exact (proj1 (no_measure_accessors_None (ML := Demo.lib) kw (VBool true)
                  Hflag eq_refl)).
Defined.

Lemma efm_check_precedes_no_measure_witness :
  let kw : gmap string value :=
    <["no_measure" := VBool true]> {["measure" := VStr "hadr"]} in
  kw !! "no_measure" = Some (VBool true) /\
  truthy (VBool true) = true /\
  kw !! "measure" = Some (VStr "hadr") /\
  str_contains "efm" "hadr" = false /\
  construct (EFMBase.__init__ (ML := Demo.lib)) kw =
  (Raise (AssertionError "Must use an efm measure."), kw, []).
Proof.
  intros kw.
  assert (kw !! "no_measure" = Some (VBool true)) as Hflag by reflexivity.
  assert (kw !! "measure" = Some (VStr "hadr")) as Hkind by reflexivity.
  split; [exact Hflag|]. split; [reflexivity|].
  split; [exact Hkind|]. split; [reflexivity|].
  exact (proj1 (efm_check_precedes_no_measure (ML := Demo.lib) kw (VBool true)
                  Hflag eq_refl) "hadr" Hkind eq_refl).
Defined.

(** ** Event or explicit data *)

Section data_claims.
Context {F : Type} {ML : MeasureLib F}.
Variable Fpow : F -> Z -> F.
Variable weight_set : obj -> gset Z.
Implicit Types (self : obj) (zs : option (array1 F)).
Implicit Types (thetas phats : option (array2 F)).

Lemma thetas_dict_lookup self (t : array2 F) (w : Z) :
  EFPBase.thetas_dict Fpow weight_set self t !! w =
  if decide (w ∈ weight_set self) then Some (EFPBase.array_pow Fpow t w)
  else None.
Proof.
  unfold EFPBase.thetas_dict. revert w.
  generalize (weight_set self). intros ws.
  pose (P := fun (d : gmap Z (array2 F)) (X : gset Z) => forall w,
              d !! w = if decide (w ∈ X)
                       then Some (EFPBase.array_pow Fpow t w) else None).
  apply (set_fold_ind_L P); subst P; cbn beta.
  - intros w. rewrite lookup_empty. rewrite decide_False; [done|].
    apply not_elem_of_empty.
  - intros x X d Hx IH w. destruct (decide (w = x)) as [->|Hne].
    + rewrite lookup_insert_eq. rewrite decide_True; [done|].
      apply elem_of_union_l, elem_of_singleton_2. done.
    + rewrite lookup_insert_ne by done. rewrite IH.
      destruct (decide (w ∈ X)) as [Hin|Hout].
      * rewrite decide_True; [done|]. by apply elem_of_union_r.
      * rewrite decide_False; [done|].
        intros [Heq%elem_of_singleton_1|?]%elem_of_union; done.
Qed.

Lemma lookup_map {A B} (f : A -> B) (l : list A) (i : nat) :
  map f l !! i = f <$> l !! i.
Proof.
  revert i. induction l as [|x l IH]; intros [|i]; cbn; auto.
Qed.

Lemma array_pow_lookup (t : array2 F) (w : Z) (i j : nat) :
  EFPBase.array_pow Fpow t w !! i ≫= (.!! j) =
  (fun x => Fpow x w) <$> (t !! i ≫= (.!! j)).
Proof.
  unfold EFPBase.array_pow. rewrite lookup_map.
  destruct (t !! i) as [row|]; [|done]. cbn. by rewrite lookup_map.
Qed.

(** C2.  With no event, [get_zs_thetas_dict] raises its argument error
    exactly when [zs] or [thetas] is missing; given both it returns [zs] as
    passed, with a mapping whose keys are the exponents of the weight set
    and whose entry at [w] is [thetas] raised elementwise to [w].
    [EFMBase.compute] follows the same rule on [(zs, phats)]: its argument
    error exactly when one is missing, the pair as passed otherwise. *)
Theorem explicit_data_contract self zs thetas :
  (is_ok (EFPBase.get_zs_thetas_dict Fpow weight_set self None zs thetas)
   = false <-> zs = None \/ thetas = None) /\
  (zs = None \/ thetas = None ->
   EFPBase.get_zs_thetas_dict Fpow weight_set self None zs thetas =
   Raise (TypeError
            "If event is None then zs and thetas cannot also be None")) /\
  (forall z t, zs = Some z -> thetas = Some t ->
   exists d,
     EFPBase.get_zs_thetas_dict Fpow weight_set self None zs thetas
     = Ok (z, d) /\
     forall w : Z,
       (d !! w = if decide (w ∈ weight_set self)
                 then Some (EFPBase.array_pow Fpow t w) else None) /\
       forall i j : nat,
         EFPBase.array_pow Fpow t w !! i ≫= (.!! j) =
         (fun x => Fpow x w) <$> (t !! i ≫= (.!! j))) /\
  (is_ok (EFMBase.compute self None zs thetas) = false <->
   zs = None \/ thetas = None) /\
  (zs = None \/ thetas = None ->
   EFMBase.compute self None zs thetas =
   Raise (ValueError "If event is None then zs and phats cannot be None.")) /\
  (forall z p, zs = Some z -> thetas = Some p ->
   EFMBase.compute self None zs thetas = Ok (z, p)).
Proof.
  unfold EFPBase.get_zs_thetas_dict, EFMBase.compute.
  split; [|split; [|split; [|split; [|split]]]].
  - destruct zs, thetas; cbn; split; intros; try done; try tauto.
    by destruct H as [|].
  - by destruct zs, thetas; cbn; intros [|].
  - intros z t -> ->. cbn. eexists. split; [done|].
    intros w. split; [apply thetas_dict_lookup|apply array_pow_lookup].
  - destruct zs, thetas; cbn; split; intros; try done; try tauto.
    by destruct H as [|].
  - by destruct zs, thetas; cbn; intros [|].
  - by intros z p -> ->.
Qed.

Context {E : Type}.
Variable efmset_compute : obj -> array1 F -> array2 F -> result E.

(** C9, as the code has it.  Whether an event was provided is decided by
    [is not None]: every event other than [None], empty or not, is
    evaluated through the measure, and the [zs], [thetas] and [phats] passed
    along with it play no part in the result.  Only with [None] as the
    event are they used. *)
Theorem event_decided_by_not_None self (event : array2 F) zs thetas :
  EFPBase.get_zs_thetas_dict Fpow weight_set self (Some event) zs thetas =
  (zt ← EFBase.evaluate self event;
   mret (zt.1, EFPBase.thetas_dict Fpow weight_set self zt.2)) /\
  EFPBase.compute_efms efmset_compute self (Some event) zs thetas =
  (zp ← EFBase.evaluate self event; efmset_compute self zp.1 zp.2) /\
  EFPBase.get_zs_thetas_dict Fpow weight_set self (Some event) zs thetas =
  EFPBase.get_zs_thetas_dict Fpow weight_set self (Some event) None None /\
  EFPBase.compute_efms efmset_compute self (Some event) zs thetas =
  EFPBase.compute_efms efmset_compute self (Some event) None None.
Proof. done. Qed.

End data_claims.

(** C9, as the claim has it: an empty event is falsy and not [None], yet
    [get_zs_thetas_dict] and [compute_efms] do not fall back on the explicit
    [zs = [1]], [thetas = [[5]]]: they return what the measure makes of the
    empty event. *)
Lemma falsy_event_is_evaluated :
  event_truthy ([] : array2 Z) = false /\
  EFPBase.get_zs_thetas_dict (ML := Demo.lib) Z.pow Demo.weights
    Demo.with_measure (Some []) (Some [1]) (Some [[5]])
  <> EFPBase.get_zs_thetas_dict (ML := Demo.lib) Z.pow Demo.weights
       Demo.with_measure None (Some [1]) (Some [[5]]) /\
  EFPBase.compute_efms (ML := Demo.lib) Demo.efms
    Demo.with_measure (Some []) (Some [1]) (Some [[5]])
  <> EFPBase.compute_efms (ML := Demo.lib) Demo.efms
       Demo.with_measure None (Some [1]) (Some [[5]]) /\
  EFPBase.compute_efms (ML := Demo.lib) Demo.efms
    Demo.with_measure (Some []) (Some [1]) (Some [[5]]) = Ok ([], []) /\
  EFPBase.compute_efms (ML := Demo.lib) Demo.efms
    Demo.with_measure None (Some [1]) (Some [[5]]) = Ok ([1], [[5]]).
Proof.
  split; [reflexivity|].
  split; [cbn; intros [=]|].
  split; [cbn; intros [=]|].
  split; reflexivity.
Qed.

Lemma explicit_data_contract_witness :
  Some [1] = Some [1] /\
  Some [[5]] = Some [[5]] /\
  exists d : gmap Z (array2 Z),
    EFPBase.get_zs_thetas_dict (ML := Demo.lib) Z.pow Demo.weights
      Demo.with_measure None (Some [1]) (Some [[5]]) = Ok ([1], d) /\
    d !! 2 = Some [[25]] /\ d !! 3 = None.
Proof.
  split; [reflexivity|]. split; [reflexivity|].
  destruct (explicit_data_contract (ML := Demo.lib) Z.pow Demo.weights
              Demo.with_measure (Some [1]) (Some [[5]]))
    as (_ & _ & Hboth & _).
  destruct (Hboth [1] [[5]] eq_refl eq_refl) as (d & Hd & Hw).
  exists d. split; [exact Hd|].
  split; [rewrite (proj1 (Hw 2))|rewrite (proj1 (Hw 3))]; reflexivity.
Defined.

(** * Further properties of the code *)

(** ** More on [batch_compute] *)

Section batch_extras.
Context {F R : Type} {PF : Platform}.
Implicit Types (func : obj -> array2 F -> result R).
Implicit Types (events : list (array2 F)) (h : heap) (n : Z).

Lemma map_result_first_raise {A B} (f : A -> result B)
    (pre post : list A) (x : A) (e : exn) :
  Forall (fun a => is_ok (f a) = true) pre ->
  f x = Raise e ->
  map_result f (pre ++ x :: post) = Raise e.
Proof.
  intros Hpre Hx. rewrite map_result_app.
  destruct (map_result_total f pre Hpre) as [ys ->].
  cbn. by rewrite Hx.
Qed.

Lemma set_n_jobs_twice (r1 r2 : Z) (o : obj) :
  set_n_jobs r2 (set_n_jobs r1 o) = set_n_jobs r2 o.
Proof. done. Qed.

(** X1.  An empty batch gives an empty vector, sequentially and in
    parallel.  In parallel the pool is still created, asked for chunks of
    one event, and given back the way the interpreter's branch does it. *)
Theorem batch_compute_empty func n h :
  n = -1 \/ 1 <= n ->
  let r := EFBase.resolve_n_jobs n in
  let out := EFBase.batch_compute func [] n h in
  out.1 = Ok [] /\
  (r = 1 -> log out.2 = log h) /\
  (2 <= r ->
   log out.2 = log h ++ [PoolNew r; PoolImap 1;
                         if version_major =? 3 then PoolTerminate
                         else PoolClose]).
Proof.
  intros Hn r out. subst out. split; [|split].
  - by rewrite batch_compute_result.
  - intros Hr. by rewrite batch_compute_sequential.
  - intros Hr. rewrite batch_compute_parallel by done. cbn.
    unfold parallel_log. fold r. cbn.
    rewrite Z.div_0_l by lia. cbn. by destruct (version_major =? 3).
Qed.

(** X2.  When some event makes the per-event function raise, the exception
    the caller sees is that of the first such event in input order, for
    every worker count and whatever later events would have done. *)
Theorem batch_compute_first_exception func n h
    (pre post : list (array2 F)) (ev : array2 F) (e : exn) :
  n = -1 \/ 1 <= n ->
  let self' := set_n_jobs (EFBase.resolve_n_jobs n) (self h) in
  Forall (fun x => is_ok (func self' x) = true) pre ->
  func self' ev = Raise e ->
  (EFBase.batch_compute func (pre ++ ev :: post) n h).1 = Raise e.
Proof.
  intros Hn self' Hpre Hev. rewrite batch_compute_result by done.
  by apply map_result_first_raise.
Qed.

(** X3.  Under Python 3 every pool the call creates is terminated before
    the call ends, whether the workers returned or raised: the call leaves
    as many live pools as it found, and a parallel batch logs creation,
    dispatch and termination in that order around its result. *)
Theorem py3_pool_always_terminated func events n h :
  version_major = 3 ->
  let r := EFBase.resolve_n_jobs n in
  let out := EFBase.batch_compute func events n h in
  live_pools (log out.2) 0 = live_pools (log h) 0 /\
  (2 <= r ->
   out.1 = map_result (func (set_n_jobs r (self h))) events /\
   log out.2 =
   log h ++ [PoolNew r;
             PoolImap (clamp (Z.of_nat (length events) / r) 1 10000);
             PoolTerminate]).
Proof.
  intros Hv r out. subst out. split.
  - by apply batch_compute_py3_releases.
  - intros Hr. rewrite batch_compute_parallel by done. cbn.
    unfold parallel_log. by rewrite Hv.
Qed.


(** X5.  A worker count of zero fails in the chunk-size division and a
    count below -1 fails in the pool constructor.  Either way nothing is
    dispatched and no pool is created, but the rejected count has already
    been stored in [self.n_jobs]. *)
Theorem batch_compute_invalid_n_jobs func events n h :
  n = 0 \/ n < -1 ->
  let out := EFBase.batch_compute func events n h in
  (n = 0 -> out.1 = Raise ZeroDivisionError) /\
  (n < -1 ->
   out.1 = Raise (ValueError "Number of processes must be at least 1")) /\
  log out.2 = log h /\
  n_jobs (self out.2) = Some n.
Proof.
  intros Hn out. subst out.
  assert (EFBase.resolve_n_jobs n = n) as Hr.
  { destruct (resolve_n_jobs_cases n) as [[_ ?]|[[? _]|[? _]]]; [done|lia..]. }
  rewrite batch_compute_no_pool by lia. rewrite Hr. cbn.
  unfold no_pool_error. split; [by intros ->|].
  split; [|done]. intros Hneg. by destruct (Z.eqb_spec n 0); [lia|].
Qed.

(** X6.  With one worker, asked for or detected on a single-CPU machine,
    the batch is mapped in the calling process: the log of pool calls is
    untouched and the only change to the heap is [self.n_jobs = 1]. *)
Theorem sequential_path_uses_no_pool func events n h :
  n = 1 \/ (n = -1 /\ cpu_count = Ok 1%positive) ->
  EFBase.batch_compute func events n h =
  (map_result (func (set_n_jobs 1 (self h))) events,
   Heap (kwargs h) (set_n_jobs 1 (self h)) (log h)).
Proof.
  intros Hn.
  assert (EFBase.resolve_n_jobs n = 1) as Hr.
  { unfold EFBase.resolve_n_jobs. destruct Hn as [->|[-> ->]]; done. }
  rewrite batch_compute_sequential by done. by rewrite Hr.
Qed.

(** X7.  The chunk size at its edges, for a valid worker count: one event
    per chunk as long as there are fewer than two events per worker, the
    cap of 10000 from 10000 events per worker on, and in between never more
    than an even share, so that every worker can get a chunk. *)
Theorem chunksize_edges (len n : Z) :
  0 <= len -> 1 <= n ->
  exists c, EFBase.chunksize_of len n = Ok c /\
    (len < 2 * n -> c = 1) /\
    (10000 * n <= len -> c = 10000) /\
    (n <= len -> c * n <= len).
Proof.
  intros Hlen Hn. exists (clamp (len / n) 1 10000).
  split; [apply chunksize_of_nonzero; lia|].
  assert (0 <= len / n) as Hq by (apply Z.div_pos; lia).
  pose proof (Z.mul_div_le len n ltac:(lia)) as Hle.
  unfold clamp. split; [|split].
  - intros Hsmall.
    assert (len / n < 2) by (apply Z.div_lt_upper_bound; lia).
    repeat case_match; lia.
  - intros Hbig.
    assert (10000 <= len / n) by (apply Z.div_le_lower_bound; lia).
    repeat case_match; lia.
  - intros Hshare.
    assert (1 <= len / n) by (apply Z.div_le_lower_bound; lia).
    repeat case_match; nia.
Qed.



End batch_extras.

(** ** More on construction *)

Section init_extras.
Context {F : Type} {ML : MeasureLib F}.
Implicit Types (kw rest : gmap string value) (o : obj) (l : list effect).

(** Every way through [EFBase.__init__]. *)
Lemma EFBase_init_run (h : heap) :
  EFBase.__init__ h =
  match kwargs_check "EFBase" (kwargs h) measure_kwargs with
  | Raise e => (Raise e, h)
  | Ok _ =>
      match kwargs h !! "measure" with
      | None => (Raise (KeyError "measure"), h)
      | Some kind =>
          let rest := delete "measure" (kwargs h) in
          let l := log h ++ [MeasureNew kind rest] in
          match Measure_new kind rest with
          | Ok m =>
              (Ok tt, Heap rest (set__measure (IsMeasure m) (self h)) l)
          | Raise e => (Raise e, Heap rest (self h) l)
          end
      end
  end.
Proof.
  unfold EFBase.__init__, mbind, M_bind, get_kwargs, lift, dict_pop, emit,
    get_self, put_self.
  destruct (kwargs_check _ _ _); [|done].
  destruct (kwargs h !! "measure") as [kind|]; [|done]. cbn.
  by destruct (Measure_new kind _).
Qed.

(** The flag is popped, whatever it held. *)
Lemma pop_no_measure_run kw o l :
  dict_pop_default "no_measure" (VBool false) (Heap kw o l) =
  (Ok (default (VBool false) (kw !! "no_measure")),
   Heap (delete "no_measure" kw) o l).
Proof.
  unfold dict_pop_default. cbn.
  destruct (kw !! "no_measure") eqn:Hflag; [done|].
  by rewrite delete_id.
Qed.

Lemma strip_inserted_measure kw (kind : value) :
  delete "measure" (<["measure" := kind]> (delete "no_measure" kw)) =
  delete "measure" (delete "no_measure" kw).
Proof. apply delete_insert_eq. Qed.

Lemma strip_checked_measure kw (kind : value) :
  delete "measure" (delete "no_measure" (<["measure" := kind]> kw)) =
  delete "measure" (delete "no_measure" kw).
Proof.
  rewrite delete_insert_ne by done. apply delete_insert_eq.
Qed.

(** X10.  [EFBase.__init__] cannot do without a ['measure'] entry: run on
    a mapping that has none, it raises, the caller's mapping is as it was
    and no [Measure] was built; the exception is the [KeyError] of
    [kwargs.pop('measure')] unless the keyword check already objected. *)
Theorem EFBase_requires_measure_key kw :
  kw !! "measure" = None ->
  exists e,
    construct EFBase.__init__ kw = (Raise e, kw, []) /\
    (kwargs_check "EFBase" kw measure_kwargs = Ok tt ->
     e = KeyError "measure").
Proof.
  intros Hnone. unfold construct. rewrite EFBase_init_run. cbn.
  rewrite Hnone.
  destruct (kwargs_check "EFBase" kw measure_kwargs) as [[]|e];
    eexists; split; done.
Qed.

(** X11.  A polynomial evaluable constructed without a truthy
    [no_measure] holds the [Measure] built from the configured kind,
    ['hadr'] when none is given, and from the other entries of [kwargs];
    [use_efms] tells whether the kind the measure reports contains ['efm'].
    The caller's mapping comes back without its ['no_measure'] and
    ['measure'] entries, and exactly one [Measure] was built. *)
Theorem EFPBase_init_with_measure kw kw' o l :
  truthy (default (VBool false) (kw !! "no_measure")) = false ->
  construct EFPBase.__init__ kw = (Ok o, kw', l) ->
  let kind := default (VStr "hadr") (kw !! "measure") in
  let rest := delete "measure" (delete "no_measure" kw) in
  exists (m : Measure.t) (b : bool),
    Measure_new kind rest = Ok m /\
    py_in "efm" (Measure.measure m) = Ok b /\
    o = Obj (Some (IsMeasure m)) (Some b) None /\
    EFBase.has_measure o = true /\
    kw' = rest /\
    l = [MeasureNew kind rest].
Proof.
  intros Hflag Hbuilt kind rest. revert Hbuilt.
  unfold construct, EFPBase.__init__.
  unfold mbind at 1, M_bind at 1. rewrite pop_no_measure_run, Hflag.
  cbn [negb]. unfold mbind at 1, M_bind at 1, dict_setdefault.
  cbn [kwargs self log].
  assert (exists kw1, kw1 !! "measure" = Some kind /\
            delete "measure" kw1 = rest /\
            (match delete "no_measure" kw !! "measure" with
             | Some v => (Ok v, Heap (delete "no_measure" kw) new_obj [])
             | None => (Ok (VStr "hadr"),
                        Heap (<["measure" := VStr "hadr"]>
                                (delete "no_measure" kw)) new_obj [])
             end) = (Ok kind, Heap kw1 new_obj [])) as (kw1 & Hk1 & Hrest & ->).
  { subst kind rest. rewrite lookup_delete_ne by done.
    destruct (kw !! "measure") as [v|] eqn:Hm; cbn.
    - exists (delete "no_measure" kw). by rewrite lookup_delete_ne.
    - eexists. split; [apply lookup_insert_eq|].
      split; [apply strip_inserted_measure|done]. }
  unfold mbind at 1, M_bind at 1. rewrite EFBase_init_run.
  cbn [kwargs self log]. rewrite Hk1, Hrest.
  destruct (kwargs_check _ _ _) as [[]|]; [|done].
  cbn zeta. destruct (Measure_new kind rest) as [m|]; [|done].
  unfold mbind, M_bind, get_self, lift, put_self. cbn.
  destruct (py_in "efm" (Measure.measure m)) as [b|] eqn:Hb; [|done].
  cbn. intros [= <- <- <-]. by exists m, b.
Qed.

(** X12.  A moment evaluable constructed without a truthy [no_measure]
    holds the [Measure] built from the configured kind, which contains
    ['efm'], and from the other entries of [kwargs], [beta] included as the
    caller gave it; only then is [beta] cleared, and the other attributes
    read as the measure has them.  The caller's mapping comes back without
    its ['no_measure'] and ['measure'] entries. *)
Theorem EFMBase_init_with_measure kw kw' o l :
  truthy (default (VBool false) (kw !! "no_measure")) = false ->
  construct EFMBase.__init__ kw = (Ok o, kw', l) ->
  let rest := delete "measure" (delete "no_measure" kw) in
  exists (m : Measure.t) (kind : string),
    measure_kind kw = VStr kind /\
    str_contains "efm" kind = true /\
    Measure_new (VStr kind) rest = Ok m /\
    rest !! "beta" = kw !! "beta" /\
    o = Obj (Some (IsMeasure (Measure.set_beta VNone m))) None None /\
    EFBase.kappa o = Measure.kappa m /\
    EFBase.measure o = Measure.measure m /\
    kw' = rest /\
    l = [MeasureNew (VStr kind) rest].
Proof.
  intros Hflag Hbuilt rest. revert Hbuilt.
  rewrite construct_EFMBase_run.
  destruct (measure_kind kw) as [| | |kind] eqn:Hkind; try done.
  cbn [py_in]. destruct (str_contains "efm" kind) eqn:Hefm; [|done].
  unfold construct, EFMBase.init_measure.
  unfold mbind at 1, M_bind at 1. rewrite pop_no_measure_run.
  rewrite lookup_insert_ne by done. rewrite Hflag. cbn [negb].
  unfold mbind at 1, M_bind at 1. rewrite EFBase_init_run.
  cbn [kwargs self log].
  rewrite lookup_delete_ne by done. rewrite lookup_insert_eq.
  rewrite strip_checked_measure. fold rest.
  destruct (kwargs_check _ _ _) as [[]|]; [|done].
  cbn zeta.
  destruct (Measure_new (VStr kind) rest) as [m|] eqn:Hnew; [|done].
  unfold EFMBase.clear_beta, mbind, M_bind, get_self, put_self. cbn.
  intros [= <- <- <-]. exists m, kind.
  repeat split; try done.
  subst rest. by rewrite !lookup_delete_ne.
Qed.

(** Every way through the two subclass constructors when [no_measure]
    is absent or falsy. *)
Lemma construct_EFPBase_run kw :
  truthy (default (VBool false) (kw !! "no_measure")) = false ->
  let kind := default (VStr "hadr") (kw !! "measure") in
  let rest := delete "measure" (delete "no_measure" kw) in
  let kw1 := <["measure" := kind]> (delete "no_measure" kw) in
  construct EFPBase.__init__ kw =
  match kwargs_check "EFBase" kw1 measure_kwargs with
  | Raise e => (Raise e, kw1, [])
  | Ok _ =>
      match Measure_new kind rest with
      | Raise e => (Raise e, rest, [MeasureNew kind rest])
      | Ok m =>
          match py_in "efm" (Measure.measure m) with
          | Raise e => (Raise e, rest, [MeasureNew kind rest])
          | Ok b => (Ok (Obj (Some (IsMeasure m)) (Some b) None), rest,
                     [MeasureNew kind rest])
          end
      end
  end.
Proof.
  intros Hflag kind rest kw1.
  unfold construct, EFPBase.__init__.
  unfold mbind at 1, M_bind at 1. rewrite pop_no_measure_run, Hflag.
  cbn [negb]. unfold mbind at 1, M_bind at 1, dict_setdefault.
  cbn [kwargs self log].
  assert ((match delete "no_measure" kw !! "measure" with
           | Some v => (Ok v, Heap (delete "no_measure" kw) new_obj [])
           | None => (Ok (VStr "hadr"),
                      Heap (<["measure" := VStr "hadr"]>
                              (delete "no_measure" kw)) new_obj [])
           end) = (Ok kind, Heap kw1 new_obj [])) as ->.
  { subst kind kw1. rewrite lookup_delete_ne by done.
    destruct (kw !! "measure") as [v|] eqn:Hm; cbn; [|done].
    rewrite insert_id; [done|]. by rewrite lookup_delete_ne. }
  unfold mbind at 1, M_bind at 1. rewrite EFBase_init_run.
  cbn [kwargs self log]. subst kw1.
  rewrite lookup_insert_eq, strip_inserted_measure. fold rest.
  destruct (kwargs_check _ _ _) as [[]|]; [|done].
  cbn zeta. destruct (Measure_new kind rest) as [m|]; [|done].
  unfold mbind, M_bind, get_self, lift, put_self. cbn.
  by destruct (py_in "efm" (Measure.measure m)).
Qed.

Lemma construct_init_measure_run kw (kind : value) :
  kw !! "measure" = Some kind ->
  truthy (default (VBool false) (kw !! "no_measure")) = false ->
  let rest := delete "measure" (delete "no_measure" kw) in
  construct EFMBase.init_measure kw =
  match kwargs_check "EFBase" (delete "no_measure" kw) measure_kwargs with
  | Raise e => (Raise e, delete "no_measure" kw, [])
  | Ok _ =>
      match Measure_new kind rest with
      | Raise e => (Raise e, rest, [MeasureNew kind rest])
      | Ok m =>
          (Ok (Obj (Some (IsMeasure (Measure.set_beta VNone m))) None None),
           rest, [MeasureNew kind rest])
      end
  end.
Proof.
  intros Hkind Hflag rest. unfold construct, EFMBase.init_measure.
  unfold mbind at 1, M_bind at 1. rewrite pop_no_measure_run, Hflag.
  cbn [negb]. unfold mbind at 1, M_bind at 1. rewrite EFBase_init_run.
  cbn [kwargs self log]. rewrite lookup_delete_ne by done. rewrite Hkind.
  fold rest. destruct (kwargs_check _ _ _) as [[]|]; [|done].
  cbn zeta. by destruct (Measure_new kind rest).
Qed.

(** X13.  The flag is judged by truthiness: a falsy [no_measure] (False,
    None, 0, the empty string) makes both constructors behave as when the
    entry is absent.  The polynomial constructor returns the same instance
    or exception, the same mapping and the same log; so does the moment
    constructor once its kind check passes, and when it does not the
    exception and the log are still the same. *)
Theorem falsy_no_measure_is_absent kw (v : value) :
  truthy v = false ->
  construct EFPBase.__init__ (<["no_measure" := v]> kw)
  = construct EFPBase.__init__ (delete "no_measure" kw) /\
  (construct EFMBase.__init__ (<["no_measure" := v]> kw)).1.1
  = (construct EFMBase.__init__ (delete "no_measure" kw)).1.1 /\
  (construct EFMBase.__init__ (<["no_measure" := v]> kw)).2
  = (construct EFMBase.__init__ (delete "no_measure" kw)).2 /\
  (py_in "efm" (measure_kind kw) = Ok true ->
   construct EFMBase.__init__ (<["no_measure" := v]> kw)
   = construct EFMBase.__init__ (delete "no_measure" kw)).
Proof.
  intros Hv.
  assert (construct EFPBase.__init__ (<["no_measure" := v]> kw)
          = construct EFPBase.__init__ (delete "no_measure" kw)) as Hefp.
  { rewrite !construct_EFPBase_run.
    - rewrite !lookup_insert_ne, !lookup_delete_ne by done.
      by rewrite delete_insert_eq, delete_delete_eq.
    - by rewrite lookup_delete_eq.
    - by rewrite lookup_insert_eq. }
  assert (measure_kind (<["no_measure" := v]> kw) = measure_kind kw) as Hk1
    by (unfold measure_kind; by rewrite lookup_insert_ne).
  assert (measure_kind (delete "no_measure" kw) = measure_kind kw) as Hk2
    by (unfold measure_kind; by rewrite lookup_delete_ne).
  assert (construct EFMBase.init_measure
            (<["measure" := measure_kind kw]> (<["no_measure" := v]> kw))
          = construct EFMBase.init_measure
              (<["measure" := measure_kind kw]> (delete "no_measure" kw)))
    as Hrest.
  { rewrite !(construct_init_measure_run _ (measure_kind kw)).
    - rewrite !(delete_insert_ne _ "no_measure" "measure") by done.
      by rewrite delete_insert_eq, delete_delete_eq.
    - apply lookup_insert_eq.
    - rewrite lookup_insert_ne by done. by rewrite lookup_delete_eq.
    - apply lookup_insert_eq.
    - rewrite lookup_insert_ne by done. by rewrite lookup_insert_eq. }
  split; [done|].
  rewrite !construct_EFMBase_run, Hk1, Hk2.
  destruct (py_in "efm" (measure_kind kw)) as [[]|]; by rewrite ?Hrest.
Qed.

(** X14.  Once a constructor has got as far as calling [Measure], the
    caller's mapping has lost its ['no_measure'] and ['measure'] entries,
    and it stays that way when [Measure] or a later step raises.  The call
    was the only one, with the configured kind and exactly the entries that
    are left. *)
Theorem kwargs_stripped_once_Measure_called kw (r : result obj) kw' l
    (kind : value) rest :
  construct EFPBase.__init__ kw = (r, kw', l) \/
  construct EFMBase.__init__ kw = (r, kw', l) ->
  MeasureNew kind rest ∈ l ->
  l = [MeasureNew kind rest] /\
  kw' = rest /\
  rest = delete "measure" (delete "no_measure" kw).
Proof.
  intros Hbuilt Hin.
  destruct (truthy (default (VBool false) (kw !! "no_measure"))) eqn:Hflag.
  - exfalso. destruct (kw !! "no_measure") as [v|] eqn:Hv; [|done].
    cbn in Hflag. destruct Hbuilt as [Hbuilt|Hbuilt].
    + unfold construct in Hbuilt.
      rewrite (EFPBase_init_skipped _ _ _ v) in Hbuilt by done.
      injection Hbuilt as _ _ <-. by apply elem_of_nil in Hin.
    + rewrite construct_EFMBase_run in Hbuilt.
      destruct (py_in "efm" (measure_kind kw)) as [[]|].
      * unfold construct in Hbuilt.
        rewrite (init_measure_skipped _ _ _ v) in Hbuilt;
          [|by rewrite lookup_insert_ne|done].
        injection Hbuilt as _ _ <-. by apply elem_of_nil in Hin.
      * injection Hbuilt as _ _ <-. by apply elem_of_nil in Hin.
      * injection Hbuilt as _ _ <-. by apply elem_of_nil in Hin.
  - destruct Hbuilt as [Hbuilt|Hbuilt].
    + rewrite construct_EFPBase_run in Hbuilt by done.
      destruct (kwargs_check _ _ _) as [[]|];
        [|injection Hbuilt as _ _ <-; by apply elem_of_nil in Hin].
      destruct (Measure_new _ _) as [m|];
        [destruct (py_in "efm" (Measure.measure m))|];
        injection Hbuilt as _ <- <-;
        apply list_elem_of_singleton in Hin; by injection Hin as -> ->.
    + rewrite construct_EFMBase_run in Hbuilt.
      destruct (py_in "efm" (measure_kind kw)) as [[]|];
        [|injection Hbuilt as _ _ <-; by apply elem_of_nil in Hin..].
      rewrite (construct_init_measure_run _ (measure_kind kw)) in Hbuilt;
        [|apply lookup_insert_eq|by rewrite lookup_insert_ne].
      rewrite strip_checked_measure in Hbuilt.
      destruct (kwargs_check _ _ _) as [[]|];
        [|injection Hbuilt as _ _ <-; by apply elem_of_nil in Hin].
      destruct (Measure_new _ _) as [m|];
        injection Hbuilt as _ <- <-;
        apply list_elem_of_singleton in Hin; by injection Hin as -> ->.
Qed.

End init_extras.

(** ** More on event or explicit data *)

Section efms_extras.
Context {F : Type} {ML : MeasureLib F} {E : Type}.
Variable efmset_compute : obj -> array1 F -> array2 F -> result E.
Implicit Types (self : obj) (zs : option (array1 F)).
Implicit Types (phats : option (array2 F)).

(** X15.  With no event, [compute_efms] raises its [TypeError] when [zs]
    or [phats] is missing, without consulting the moment set, and hands
    both to [efmset.compute] otherwise; whatever that returns or raises is
    the result.  So a failure that is not this [TypeError] means both were
    given. *)
Theorem compute_efms_explicit_data self zs phats :
  (zs = None \/ phats = None ->
   EFPBase.compute_efms efmset_compute self None zs phats =
   Raise (TypeError
            "If event is None then zs and thetas cannot also be None")) /\
  (forall z p, zs = Some z -> phats = Some p ->
   EFPBase.compute_efms efmset_compute self None zs phats
   = efmset_compute self z p) /\
  ((forall z p, is_ok (efmset_compute self z p) = true) ->
   (is_ok (EFPBase.compute_efms efmset_compute self None zs phats) = false
    <-> zs = None \/ phats = None)).
Proof.
  unfold EFPBase.compute_efms. split; [|split].
  - by destruct zs, phats; cbn; intros [|].
  - by intros z p -> ->.
  - intros Hok. destruct zs as [z|], phats as [p|]; cbn;
      try (split; [tauto|done]).
    rewrite Hok. split; [done|]. by intros [|].
Qed.

End efms_extras.

Section data_extras.
Context {F : Type} {ML : MeasureLib F}.
Variable Fpow : F -> Z -> F.
Variable weight_set : obj -> gset Z.
Context {E : Type}.
Variable efmset_compute : obj -> array1 F -> array2 F -> result E.
Implicit Types (self : obj) (zs : option (array1 F)).
Implicit Types (thetas phats : option (array2 F)).

(** X16.  An instance without a measure cannot take events: whatever
    explicit data come with the event, [get_zs_thetas_dict], [compute_efms]
    and [EFMBase.compute] raise the [AttributeError] of
    [self._measure.evaluate], and the moment set is not consulted. *)
Theorem event_needs_measure self (event : array2 F) zs thetas :
  EFBase.has_measure self = false ->
  exists name : string,
    EFBase.evaluate self event = Raise (AttributeError name) /\
    EFPBase.get_zs_thetas_dict Fpow weight_set self (Some event) zs thetas
    = Raise (AttributeError name) /\
    EFPBase.compute_efms efmset_compute self (Some event) zs thetas
    = Raise (AttributeError name) /\
    EFMBase.compute self (Some event) zs thetas
    = Raise (AttributeError name).
Proof.
  unfold EFBase.has_measure, EFPBase.get_zs_thetas_dict,
    EFPBase.compute_efms, EFMBase.compute, EFBase.evaluate.
  destruct (_measure self) as [[m|v]|]; [done| |]; intros _; by eexists.
Qed.

(** X17.  With an event, the three functions stand or fall with the
    measure's evaluation of it.  Its exception is theirs.  Its result
    [(zs, thetas)] is what [EFMBase.compute] returns and what
    [efmset.compute] is given, and [get_zs_thetas_dict] returns [zs] with a
    mapping whose keys are exactly the weight set and whose entry at [w] is
    [thetas**w]. *)
Theorem event_path_follows_evaluate self (event : array2 F) zs thetas :
  (forall e, EFBase.evaluate self event = Raise e ->
     EFPBase.get_zs_thetas_dict Fpow weight_set self (Some event) zs thetas
     = Raise e /\
     EFPBase.compute_efms efmset_compute self (Some event) zs thetas
     = Raise e /\
     EFMBase.compute self (Some event) zs thetas = Raise e) /\
  (forall z t, EFBase.evaluate self event = Ok (z, t) ->
     (exists d : gmap Z (array2 F),
        EFPBase.get_zs_thetas_dict Fpow weight_set self (Some event) zs thetas
        = Ok (z, d) /\
        dom d = weight_set self /\
        forall w, w ∈ weight_set self ->
          d !! w = Some (EFPBase.array_pow Fpow t w)) /\
     EFPBase.compute_efms efmset_compute self (Some event) zs thetas
     = efmset_compute self z t /\
     EFMBase.compute self (Some event) zs thetas = Ok (z, t)).
Proof.
  unfold EFPBase.get_zs_thetas_dict, EFPBase.compute_efms, EFMBase.compute.
  split.
  - by intros e ->.
  - intros z t ->. cbn. split; [|done].
    eexists. split; [done|]. split.
    + apply set_eq. intros w. rewrite elem_of_dom, thetas_dict_lookup.
      destruct (decide (w ∈ weight_set self)); [by split; eauto|].
      split; [by intros [? ?]|done].
    + intros w Hw. rewrite thetas_dict_lookup. by rewrite decide_True.
Qed.

End data_extras.

(** ** The further properties on concrete inputs *)

Lemma batch_compute_empty_witness :
  (2 = -1 \/ 1 <= 2) /\
  2 <= EFBase.resolve_n_jobs (PF := Demo.py3) 2 /\
  let out := EFBase.batch_compute (PF := Demo.py3) Demo.total [] 2
               (Heap ∅ new_obj []) in
  out.1 = Ok [] /\ log out.2 = [PoolNew 2; PoolImap 1; PoolTerminate].
Proof.
  assert (2 = -1 \/ 1 <= 2) as Hn by (right; lia).
  assert (2 <= EFBase.resolve_n_jobs (PF := Demo.py3) 2) as Hr by (cbn; lia).
  split; [exact Hn|]. split; [exact Hr|].
  destruct (batch_compute_empty (PF := Demo.py3) Demo.total 2
              (Heap ∅ new_obj []) Hn) as (Hres & _ & Hlog).
  split; [exact Hres|exact (Hlog Hr)].
Defined.

Lemma batch_compute_first_exception_witness :
  (2 = -1 \/ 1 <= 2) /\
  Forall (fun x => is_ok (Demo.total (set_n_jobs 2 new_obj) x) = true)
    [[[1]]] /\
  Demo.total (set_n_jobs 2 new_obj) [] = Raise (RuntimeError "empty event") /\
  (EFBase.batch_compute (PF := Demo.py3) Demo.total
     ([[[1]]] ++ [] :: [[[2]]; []]) 2 (Heap ∅ new_obj [])).1
  = Raise (RuntimeError "empty event").
Proof.
  assert (2 = -1 \/ 1 <= 2) as Hn by (right; lia).
  assert (Forall (fun x => is_ok (Demo.total (set_n_jobs 2 new_obj) x) = true)
            [[[1]]]) as Hpre
    by (apply Forall_cons; split; [reflexivity|apply Forall_nil_2]).
  split; [exact Hn|]. split; [exact Hpre|]. split; [reflexivity|].
  exact (batch_compute_first_exception (PF := Demo.py3) Demo.total 2
           (Heap ∅ new_obj []) [[[1]]] [[[2]]; []] []
           (RuntimeError "empty event") Hn Hpre eq_refl).
Defined.

Lemma py3_pool_always_terminated_witness :
  version_major (Platform := Demo.py3) = 3 /\
  2 <= EFBase.resolve_n_jobs (PF := Demo.py3) 2 /\
  let out := EFBase.batch_compute (PF := Demo.py3) Demo.total
               [[[1]]; []] 2 (Heap ∅ new_obj []) in
  live_pools (log out.2) 0 = 0%nat /\
  out.1 = Raise (RuntimeError "empty event") /\
  log out.2 = [PoolNew 2; PoolImap 1; PoolTerminate].
Proof.
  assert (2 <= EFBase.resolve_n_jobs (PF := Demo.py3) 2) as Hr by (cbn; lia).
  split; [reflexivity|]. split; [exact Hr|].
  destruct (py3_pool_always_terminated (PF := Demo.py3) Demo.total
              [[[1]]; []] 2 (Heap ∅ new_obj []) eq_refl) as (Hlive & Hpar).
  destruct (Hpar Hr) as (Hres & Hlog).
  split; [exact Hlive|]. split; [exact Hres|exact Hlog].
Defined.


Lemma batch_compute_invalid_n_jobs_witness :
  (0 = 0 \/ 0 < -1) /\
  let out := EFBase.batch_compute (PF := Demo.py3) Demo.total
               [[[1]]; [[2]]] 0 (Heap ∅ new_obj []) in
  out.1 = Raise ZeroDivisionError /\
  log out.2 = [] /\
  n_jobs (self out.2) = Some 0.
Proof.
  assert (0 = 0 \/ 0 < -1) as Hn by (left; reflexivity).
  split; [exact Hn|].
  destruct (batch_compute_invalid_n_jobs (PF := Demo.py3) Demo.total
              [[[1]]; [[2]]] 0 (Heap ∅ new_obj []) Hn)
    as (Hzero & _ & Hlog & Hstored).
  split; [exact (Hzero eq_refl)|]. split; [exact Hlog|exact Hstored].
Defined.

Lemma sequential_path_uses_no_pool_witness :
  let one_cpu : Platform :=
    {| cpu_count := Ok 1%positive; version_major := 3 |} in
  (-1 = 1 \/ (-1 = -1 /\ cpu_count (Platform := one_cpu) = Ok 1%positive)) /\
  EFBase.batch_compute (PF := one_cpu) Demo.total [[[1]]; [[2]]] (-1)
    (Heap ∅ new_obj [])
  = (Ok [1; 2], Heap ∅ (set_n_jobs 1 new_obj) []).
Proof.
  intros one_cpu.
  assert (-1 = 1 \/ (-1 = -1 /\ cpu_count (Platform := one_cpu) = Ok 1%positive))
    as Hn by (right; split; reflexivity).
  split; [exact Hn|].
  exact (sequential_path_uses_no_pool (PF := one_cpu) Demo.total
           [[[1]]; [[2]]] (-1) (Heap ∅ new_obj []) Hn).
Defined.

Lemma chunksize_edges_witness :
  0 <= 25 /\ 1 <= 4 /\
  exists c, EFBase.chunksize_of 25 4 = Ok c /\ (4 <= 25 -> c * 4 <= 25).
Proof.
  assert (0 <= 25) as Hlen by lia.
  assert (1 <= 4) as Hn by lia.
  split; [exact Hlen|]. split; [exact Hn|].
  destruct (chunksize_edges 25 4 Hlen Hn) as (c & Hc & _ & _ & Hshare).
  exists c. split; [exact Hc|exact Hshare].
Defined.

Lemma EFBase_requires_measure_key_witness :
  let kw : gmap string value := {["beta" := VNum 2]} in
  kw !! "measure" = None /\
  exists e, construct (EFBase.__init__ (ML := Demo.lib)) kw = (Raise e, kw, [])
            /\ (kwargs_check "EFBase" kw (measure_kwargs (MeasureLib := Demo.lib))
                = Ok tt -> e = KeyError "measure").
Proof.
  intros kw.
  assert (kw !! "measure" = None) as Hnone by reflexivity.
  split; [exact Hnone|].
  exact (EFBase_requires_measure_key (ML := Demo.lib) kw Hnone).
Defined.

Lemma EFPBase_init_with_measure_witness :
  let kw : gmap string value := {["beta" := VNum 2]} in
  let built := construct (EFPBase.__init__ (ML := Demo.lib)) kw in
  let o := Obj (Some (IsMeasure
                  (Measure.mk (VStr "hadr") (VNum 2) (VNum 1) (VBool true)
                     VNone (VBool true) (VBool false))))
             (Some false) None in
  truthy (default (VBool false) (kw !! "no_measure")) = false /\
  built = (Ok o, built.1.2, built.2) /\
  EFBase.has_measure o = true /\
  built.1.2 = delete "measure" (delete "no_measure" kw).
Proof.
  intros kw built o.
  assert (truthy (default (VBool false) (kw !! "no_measure")) = false)
    as Hflag by reflexivity.
  assert (built = (Ok o, built.1.2, built.2)) as Hbuilt
    by (vm_compute; reflexivity).
  split; [exact Hflag|]. split; [exact Hbuilt|].
  destruct (EFPBase_init_with_measure (ML := Demo.lib) kw _ _ _ Hflag Hbuilt)
    as (m & b & _ & _ & _ & Hhas & Hkw & _).
  split; [exact Hhas|exact Hkw].
Defined.

Lemma EFMBase_init_with_measure_witness :
  let kw : gmap string value :=
    <["beta" := VNum 2]> {["measure" := VStr "hadrefm"]} in
  let built := construct (EFMBase.__init__ (ML := Demo.lib)) kw in
  truthy (default (VBool false) (kw !! "no_measure")) = false /\
  built = (Ok Demo.with_measure, built.1.2, built.2) /\
  built.1.2 = delete "measure" (delete "no_measure" kw).
Proof.
  intros kw built.
  assert (truthy (default (VBool false) (kw !! "no_measure")) = false)
    as Hflag by reflexivity.
  assert (built = (Ok Demo.with_measure, built.1.2, built.2)) as Hbuilt
    by (vm_compute; reflexivity).
  split; [exact Hflag|]. split; [exact Hbuilt|].
  destruct (EFMBase_init_with_measure (ML := Demo.lib) kw _ _ _ Hflag Hbuilt)
    as (m & kind & _ & _ & _ & _ & _ & _ & _ & Hkw & _).
  exact Hkw.
Defined.

Lemma falsy_no_measure_is_absent_witness :
  let kw : gmap string value := {["beta" := VNum 2]} in
  truthy (VNum 0) = false /\
  construct (EFPBase.__init__ (ML := Demo.lib)) (<["no_measure" := VNum 0]> kw)
  = construct (EFPBase.__init__ (ML := Demo.lib)) (delete "no_measure" kw).
Proof.
  intros kw. split; [reflexivity|].
  exact (proj1 (falsy_no_measure_is_absent (ML := Demo.lib) kw (VNum 0)
                  eq_refl)).
Defined.

Lemma kwargs_stripped_once_Measure_called_witness :
  let kw : gmap string value :=
    <["no_measure" := VBool false]> {["measure" := VStr "hadrefm"]} in
  let built := construct (EFMBase.__init__ (ML := Demo.lib)) kw in
  built = (built.1.1, built.1.2, built.2) /\
  MeasureNew (VStr "hadrefm") ∅ ∈ built.2 /\
  built.1.2 = ∅.
Proof.
  intros kw built.
  assert (built = (built.1.1, built.1.2, built.2)) as Hbuilt
    by (vm_compute; reflexivity).
  assert (MeasureNew (VStr "hadrefm") ∅ ∈ built.2) as Hin
    by (vm_compute; apply list_elem_of_here).
  split; [exact Hbuilt|]. split; [exact Hin|].
  destruct (kwargs_stripped_once_Measure_called (ML := Demo.lib) kw
              _ _ _ _ _ (or_intror Hbuilt) Hin) as (_ & Hkw & _).
  exact Hkw.
Defined.

Lemma compute_efms_explicit_data_witness :
  Some [1] = Some [1] /\
  Some [[5]] = Some [[5]] /\
  EFPBase.compute_efms (ML := Demo.lib) Demo.efms Demo.with_measure None
    (Some [1]) (Some [[5]]) = Ok ([1], [[5]]).
Proof.
  split; [reflexivity|]. split; [reflexivity|].
  destruct (compute_efms_explicit_data (ML := Demo.lib) Demo.efms
              Demo.with_measure (Some [1]) (Some [[5]])) as (_ & Hboth & _).
  exact (Hboth [1] [[5]] eq_refl eq_refl).
Defined.

Lemma event_needs_measure_witness :
  EFBase.has_measure new_obj = false /\
  exists name : string,
    EFPBase.get_zs_thetas_dict (ML := Demo.lib) Z.pow Demo.weights new_obj
      (Some [[3]]) (Some [1]) (Some [[5]])
    = Raise (AttributeError name).
Proof.
  split; [reflexivity|].
  destruct (event_needs_measure (ML := Demo.lib) Z.pow Demo.weights Demo.efms
              new_obj [[3]] (Some [1]) (Some [[5]]) eq_refl)
    as (name & _ & Hget & _).
  exists name. exact Hget.
Defined.

Lemma event_path_follows_evaluate_witness :
  EFBase.evaluate (ML := Demo.lib) Demo.with_measure [[3]; [5]]
  = Ok ([3; 5], [[0; 2]; [2; 0]]) /\
  EFMBase.compute (ML := Demo.lib) Demo.with_measure (Some [[3]; [5]])
    (Some [1]) None
  = Ok ([3; 5], [[0; 2]; [2; 0]]).
Proof.
  assert (EFBase.evaluate (ML := Demo.lib) Demo.with_measure [[3]; [5]]
          = Ok ([3; 5], [[0; 2]; [2; 0]])) as Heval by reflexivity.
  split; [exact Heval|].
  destruct (event_path_follows_evaluate (ML := Demo.lib) Z.pow Demo.weights
              Demo.efms Demo.with_measure [[3]; [5]] (Some [1]) None)
    as (_ & Hok).
  destruct (Hok _ _ Heval) as (_ & _ & Hefm). exact Hefm.
Defined.

(** ** Batches of a moment evaluable *)

Section moment_batch.
Context {F : Type} {ML : MeasureLib F} {PF : Platform}.
Implicit Types (events : list (array2 F)) (h : heap) (n : Z).



End moment_batch.

